(** * Sample-data generator of the climate / agriculture dashboard

    A shallow embedding of [climate_change_agriculture_sa.py]: the data
    generator [load_data], the season selection and the image block of the
    Crop Health tab, and the health indicator.

    Python floats are IEEE 754 binary64 values; they are modelled by the
    kernel's primitive [float], whose operations are specified against
    [SpecFloat] by the standard library.  Python ints are [Z]. *)

From Stdlib Require Import ZArith Floats.
From stdpp Require Import base list strings gmap pretty.

Set Warnings "-inexact-float".

Open Scope Z_scope.

(** ** Python numbers and builtins *)

Module Py.

(** [float(z)] for a Python int [z]: the nearest binary64 value (exact for
    every int the program converts, all of magnitude below 2^53). *)
Definition float_of_Z (z : Z) : float :=
  SF2Prim (binary_normalize prec emax z 0 false).

(** The builtin [max(a, b)]: the first argument is kept unless the second
    compares strictly greater ([b > a]). *)
Definition max (a b : float) : float :=
  if (a <? b)%float then b else a.

(** [list(range(a, b))]. *)
Definition range (a b : Z) : list Z :=
  map (fun i => a + Z.of_nat i) (seq 0 (Z.to_nat (b - a))).

(** [s.startswith(sub)]. *)
Fixpoint startswith (sub s : string) : bool :=
  match sub, s with
  | EmptyString, _ => true
  | String a sub', String b s' => if Ascii.eqb a b then startswith sub' s' else false
  | String _ _, EmptyString => false
  end.

(** The operator [sub in s] on strings. *)
Fixpoint str_in (sub s : string) : bool :=
  startswith sub s ||
  match s with
  | EmptyString => false
  | String _ s' => str_in sub s'
  end.

(** [str(z)] for an int. *)
Definition str (z : Z) : string := pretty z.

End Py.

(** [sub] occurs in [s]: the meaning of Python's [sub in s]. *)
Definition Substring (sub s : string) : Prop :=
  exists pre post, s = String.append pre (String.append sub post).

(** ** The tables *)

(** A value of the [regions] dict: [{"bbox": [west, south, east, north]}]. *)
Record region_info := { bbox : list float }.

(** [climate_df]: a frame built from a dict of columns. *)
Module Climate.
Record t := {
  Year : list Z;
  Temperature_Change : list float;   (* "Temperature Change (°C)" *)
  Rainfall_Change : list float       (* "Rainfall Change (%)" *)
}.
End Climate.

(** [crop_health_df]: a frame built from a list of row dicts. *)
Module CropHealth.
Record row := {
  Region : string;
  Year : Z;
  Crop_Health_Index : float;
  Crop_Type : string
}.
End CropHealth.

(** [projections_df]: a frame built from a dict of columns. *)
Module Projections.
Record t := {
  Year : list Z;
  Projected_Temp_Change : list float;
  Projected_Rainfall_Change : list float;
  Projected_Crop_Health : list float
}.
End Projections.

Definition regions : list (string * region_info) :=
  [ ("Western Cape Wheat", {| bbox := [18.4; -34.2; 20.5; -33.0]%float |});
    ("Free State Maize",   {| bbox := [26.5; -29.0; 28.5; -27.0]%float |});
    ("KZN Sugarcane",      {| bbox := [30.5; -29.5; 31.5; -28.5]%float |}) ].

(** Iterating a dict yields its keys in insertion order. *)
Definition keys {V} (d : list (string * V)) : list string := map fst d.

(** ["Wheat" if "Wheat" in region else "Maize" if "Maize" in region else "Sugarcane"] *)
Definition crop_type (region : string) : string :=
  if Py.str_in "Wheat" region then "Wheat"
  else if Py.str_in "Maize" region then "Maize"
  else "Sugarcane".

(** The four tables returned by [load_data]. *)
Record tables := {
  t_regions : list (string * region_info);
  t_climate_df : Climate.t;
  t_crop_health_df : list CropHealth.row;
  t_projections_df : Projections.t
}.

(** ** The generator, over numpy's global random state *)

Section Generator.

(** The state of numpy's global generator, and [np.random.normal(loc, scale)]
    as a function of it: the value drawn and the state left behind. *)
Variable rng : Type.
Variable normal : float -> float -> rng -> float * rng.

Definition M (A : Type) : Type := rng -> A * rng.

Definition ret {A} (a : A) : M A := fun s => (a, s).

Definition bind {A B} (m : M A) (k : A -> M B) : M B :=
  fun s => let (a, s') := m s in k a s'.

Notation "'let!' x ':=' m 'in' k" := (bind m (fun x => k))
  (at level 10, x name, m at level 200, k at level 200, only parsing).

(** A list comprehension [[f x for x in xs]] whose body draws from the
    generator. *)
Fixpoint comprehension {A B} (f : A -> M B) (xs : list A) : M (list B) :=
  match xs with
  | [] => ret []
  | x :: xs' => let! y := f x in let! ys := comprehension f xs' in ret (y :: ys)
  end.

(** A [for x in xs:] loop whose body updates an accumulator. *)
Fixpoint for_each {A S} (xs : list A) (body : A -> S -> M S) (acc : S) : M S :=
  match xs with
  | [] => ret acc
  | x :: xs' => let! acc' := body x acc in for_each xs' body acc'
  end.

Definition load_data : M tables :=
  let years := Py.range 2010 2024 in
  let! temp_change := comprehension (fun year =>
      let! n := normal 0 0.2 in
      ret (0.1 * Py.float_of_Z (year - 2010) + n)%float) years in
  let! rainfall_change := comprehension (fun year =>
      let! n := normal 0 3 in
      ret (Py.float_of_Z (-2 * (year - 2010)) + n)%float) years in
  let climate_df :=
    {| Climate.Year := years;
       Climate.Temperature_Change := temp_change;
       Climate.Rainfall_Change := rainfall_change |} in
  let! crop_health := for_each (keys regions) (fun region crop_health =>
      for_each years (fun year crop_health =>
        let! n := normal 0 5 in
        let health := (Py.float_of_Z 80 - 0.8 * Py.float_of_Z (year - 2010) + n)%float in
        ret (crop_health ++
             [ {| CropHealth.Region := region;
                  CropHealth.Year := year;
                  CropHealth.Crop_Health_Index := Py.max (Py.float_of_Z 60) health;
                  CropHealth.Crop_Type := crop_type region |} ])) crop_health) [] in
  let crop_health_df := crop_health in
  let future_years := Py.range 2024 2050 in
  let! future_temp := comprehension (fun year =>
      let! n := normal 0 0.3 in
      ret (0.15 * Py.float_of_Z (year - 2010) + n)%float) future_years in
  let! future_rain := comprehension (fun year =>
      let! n := normal 0 5 in
      ret (Py.float_of_Z (-3 * (year - 2010)) + n)%float) future_years in
  let! future_health := comprehension (fun year =>
      let! n := normal 0 6 in
      ret (Py.float_of_Z 80 - 1.0 * Py.float_of_Z (year - 2010) + n)%float) future_years in
  let projections_df :=
    {| Projections.Year := future_years;
       Projections.Projected_Temp_Change := future_temp;
       Projections.Projected_Rainfall_Change := future_rain;
       Projections.Projected_Crop_Health :=
         map (fun h => Py.max (Py.float_of_Z 40) h) future_health |} in
  ret {| t_regions := regions;
         t_climate_df := climate_df;
         t_crop_health_df := crop_health_df;
         t_projections_df := projections_df |}.

(** [n] successive draws of [np.random.normal(loc, scale)]. *)
Fixpoint draws (loc scale : float) (n : nat) (s : rng) : list float * rng :=
  match n with
  | O => ([], s)
  | S n' =>
      let (x, s1) := normal loc scale s in
      let (xs, s2) := draws loc scale n' s1 in
      (x :: xs, s2)
  end.

End Generator.

Arguments ret {rng A} a s /.
Arguments bind {rng A B} m k s /.
Arguments comprehension {rng A B} f xs s.
Arguments for_each {rng A S} xs body acc s.
Arguments draws {rng} normal loc scale n s.
Arguments load_data {rng} normal s.

(** *** Two concrete random sources *)

(** The deterministic test mode: every draw is [0.0]. *)
Definition zero_noise (loc scale : float) (s : unit) : float * unit :=
  (0%float, s).

(** A source that replays a prepared tape of draws ([0.0] once it is used up);
    any sequence of outcomes of [np.random.normal] is such a tape. *)
Definition replay (loc scale : float) (tape : list float) : float * list float :=
  match tape with
  | [] => (0%float, [])
  | x :: tape' => (x, tape')
  end.

(** *** The formulas as the specification words them *)

(** Crop-health index for year [Y]: [max(60, 80 - 0.8*(Y-2010) + noise)].
    The region is not an argument. *)
Definition spec_crop_health (Y : Z) (noise : float) : float :=
  Py.max 60 (80 - 0.8 * Py.float_of_Z (Y - 2010) + noise)%float.

(** Future crop-health index: [max(40, 80 - 1.0*(Y-2010) + noise)]. *)
Definition spec_future_health (Y : Z) (noise : float) : float :=
  Py.max 40 (80 - 1.0 * Py.float_of_Z (Y - 2010) + noise)%float.

(** The row of [crop_health_df] for a region, a year and the draw made for
    that pair. *)
Definition spec_crop_row (ry : string * Z) (noise : float) : CropHealth.row :=
  {| CropHealth.Region := ry.1;
     CropHealth.Year := ry.2;
     CropHealth.Crop_Health_Index := spec_crop_health ry.2 noise;
     CropHealth.Crop_Type := crop_type ry.1 |}.

(** ** The process-lifetime cache *)

(** Modelled from the spec: the decorator [@st.cache_data] on [load_data] is
    Streamlit's, not this program's.  As the specification words it, the
    result is "computed at most once per process lifetime and reused for every
    subsequent read (memoization with no invalidation / no TTL)": the
    decorator is applied without arguments and [load_data] takes none, so the
    cache holds at most one entry, filled by the first invocation. *)
Section Cache.

Variable rng : Type.
Variable normal : float -> float -> rng -> float * rng.

(** The process: the cache entry of [load_data], numpy's generator state, and
    the number of times the body of [load_data] has run. *)
Record process := {
  cache : option tables;
  generator : rng;
  computed : nat
}.

Definition cached_load_data (p : process) : tables * process :=
  match cache p with
  | Some r => (r, p)
  | None =>
      let (r, s') := load_data normal (generator p) in
      (r, {| cache := Some r; generator := s'; computed := S (computed p) |})
  end.

(** [n] invocations in a row, with their results. *)
Fixpoint invocations (n : nat) (p : process) : list tables * process :=
  match n with
  | O => ([], p)
  | S n' =>
      let (r, p1) := cached_load_data p in
      let (rs, p2) := invocations n' p1 in
      (r :: rs, p2)
  end.

End Cache.

Arguments cache {rng} p.
Arguments generator {rng} p.
Arguments computed {rng} p.

(** ** Crop Health tab: the season selection *)

(** Values held by [st.session_state]. *)
Inductive value :=
  | VStr (s : string)
  | VInt (z : Z)
  | VBool (b : bool).

(** The values of the three season buttons in one run of the script. *)
Record buttons := {
  planting_btn : bool;
  growth_btn : bool;
  harvest_btn : bool
}.

(** Lines 312-321: the three [if] statements, then the initialisation. *)
Definition select_season (b : buttons) (session_state : gmap string value)
  : gmap string value :=
  let st1 := if planting_btn b then <["crop_season" := VStr "Planting"]> session_state
             else session_state in
  let st2 := if growth_btn b then <["crop_season" := VStr "Growth"]> st1 else st1 in
  let st3 := if harvest_btn b then <["crop_season" := VStr "Harvest"]> st2 else st2 in
  match st3 !! "crop_season" with
  | None => <["crop_season" := VStr "Planting"]> st3
  | Some _ => st3
  end.

(** [st.session_state.crop_season] as read by the display line. *)
Definition crop_season (session_state : gmap string value) : option value :=
  session_state !! "crop_season".

(** A session: the script runs once per interaction, on the state the
    previous run left. *)
Definition session (st0 : gmap string value) (runs : list buttons)
  : gmap string value :=
  foldl (fun st b => select_season b st) st0 runs.

Definition no_press : buttons :=
  {| planting_btn := false; growth_btn := false; harvest_btn := false |}.

(** A click on one button: that button alone is [True] in the run it triggers. *)
Inductive season_button := Planting | Growth | Harvest.

Definition press (k : season_button) : buttons :=
  match k with
  | Planting => {| planting_btn := true; growth_btn := false; harvest_btn := false |}
  | Growth => {| planting_btn := false; growth_btn := true; harvest_btn := false |}
  | Harvest => {| planting_btn := false; growth_btn := false; harvest_btn := true |}
  end.

Definition button_value (k : season_button) : string :=
  match k with
  | Planting => "Planting"
  | Growth => "Growth"
  | Harvest => "Harvest"
  end.

Definition pressed (b : buttons) : bool :=
  planting_btn b || growth_btn b || harvest_btn b.

(** The stored season is the value of one of the three buttons. *)
Definition valid_season (o : option value) : Prop :=
  exists k, o = Some (VStr (button_value k)).

(** ** Crop Health tab: the satellite image *)

(** An instance of (a subclass of) [Exception], with what [str(e)] gives. *)
Record exn := Exception { exn_class : string; exn_str : string }.

Inductive result (A : Type) :=
  | Ok (a : A)
  | Raise (e : exn).
Arguments Ok {A} a.
Arguments Raise {A} e.

Definition image_urls : gmap string string :=
  <["Western Cape Wheat" := "https://upload.wikimedia.org/wikipedia/commons/5/56/Wheat_panorama.jpg"]>
  (<["Free State Maize" := "https://upload.wikimedia.org/wikipedia/commons/6/62/Maize_production_near_the_R34_Welkom.jpg"]>
  (<["KZN Sugarcane" := "https://upload.wikimedia.org/wikipedia/commons/3/3a/RSA_Sugar_Fields.jpg"]> ∅)).

Definition placeholder_url : string :=
  "https://images.unsplash.com/photo-1500382017468-9049fed747ef?ixlib=rb-4.0.3&ixid=M3wxMjA3fDB8MHxwaG90by1wYWdlfHx8fGVufDB8fHx8fA%3D%3D&auto=format&fit=crop&w=600&q=80".

Section ImageBlock.

(** The collaborators: the HTTP client, the image library and the encoding
    of an image by [st.image]; each returns or raises. *)
Variable payload : Type.
Variable image : Type.

Record response := { status_code : Z; raw : payload }.

Variable requests_get : string -> bool -> result response.
Variable Image_open : payload -> result image.
Variable encode : image -> result unit.

(** What the page receives. *)
Inductive element :=
  | ImageElement (img : image) (caption : string) (width : Z)
  | ImageUrlElement (url : string) (use_container_width : bool)
  | WarningElement (body : string).

(** Display code: the elements sent so far, and a value or a raised
    exception. *)
Definition UI (A : Type) : Type := list element * result A.

Definition ui_ret {A} (a : A) : UI A := ([], Ok a).

Definition ui_bind {A B} (m : UI A) (k : A -> UI B) : UI B :=
  match m with
  | (out, Ok a) => let (out', r) := k a in (out ++ out', r)
  | (out, Raise e) => (out, Raise e)
  end.

Definition call {A} (r : result A) : UI A := ([], r).

Definition raise {A} (e : exn) : UI A := ([], Raise e).

(** [try: body  except Exception as e: handler e]. *)
Definition try_except {A} (body : UI A) (handler : exn -> UI A) : UI A :=
  match body with
  | (out, Raise e) => let (out', r) := handler e in (out ++ out', r)
  | (out, Ok a) => (out, Ok a)
  end.

(** [st.image(img, caption=..., width=...)] on an opened image: the image is
    encoded, then sent. *)
Definition st_image (img : image) (caption : string) (width : Z) : UI unit :=
  match encode img with
  | Ok _ => ([ImageElement img caption width], Ok tt)
  | Raise e => ([], Raise e)
  end.

(** [st.image(url, use_container_width=...)] on a URL: the URL is sent as it
    is. *)
Definition st_image_url (url : string) (use_container_width : bool) : UI unit :=
  ([ImageUrlElement url use_container_width], Ok tt).

Definition st_warning (body : string) : UI unit :=
  ([WarningElement body], Ok tt).

(** [image_urls[region]]; a missing key raises [KeyError]. *)
Definition getitem (d : gmap string string) (k : string) : UI string :=
  match d !! k with
  | Some v => ui_ret v
  | None => raise (Exception "KeyError" ("'" +:+ k +:+ "'"))
  end.

Notation "'do!' x ':=' m 'in' k" := (ui_bind m (fun x => k))
  (at level 10, x name, m at level 200, k at level 200, only parsing).

(** Lines 365-379. *)
Definition image_block (region season : string) (year : Z) : UI unit :=
  try_except
    (do! url := getitem image_urls region in
     do! response := call (requests_get url true) in
     if status_code response =? 200 then
       do! img := call (Image_open (raw response)) in
       st_image img
         ("Sentinel-2 Imagery: " +:+ region +:+ " (" +:+ season +:+ " " +:+ Py.str year +:+ ")")
         500
     else
       raise (Exception "Exception" ("HTTP Error: " +:+ Py.str (status_code response))))
    (fun e =>
       do! _u := st_warning ("Unable to load satellite image. Error: " +:+ exn_str e) in
       st_image_url placeholder_url true).

End ImageBlock.

Arguments status_code {payload} r.
Arguments raw {payload} r.
Arguments ImageElement {image} img caption width.
Arguments ImageUrlElement {image} url use_container_width.
Arguments WarningElement {image} body.

(** ** Crop Health tab: the health indicator *)

(** [Series.mean()] of pandas: NaN entries are skipped; the sum of the others
    over their count, NaN when there is none. *)
Definition series_mean (xs : list float) : float :=
  let vals := List.filter (fun x => negb (is_nan x)) xs in
  match vals with
  | [] => nan
  | _ => (fold_left add vals 0 / Py.float_of_Z (Z.of_nat (length vals)))%float
  end.

(** Lines 382-385: the rows selected by the mask
    [(Region == region) & (Year == year)], their index column, its mean. *)
Definition matching_rows (crop_health_df : list CropHealth.row)
    (region : string) (year : Z) : list CropHealth.row :=
  List.filter
    (fun r => String.eqb (CropHealth.Region r) region && Z.eqb (CropHealth.Year r) year)
    crop_health_df.

Definition health_value (crop_health_df : list CropHealth.row)
    (region : string) (year : Z) : float :=
  series_mean (map CropHealth.Crop_Health_Index (matching_rows crop_health_df region year)).

(** ** The draws of one run of [load_data], and the tables they give *)

(** The six batches of draws, in the order [load_data] makes them. *)
Record noise := {
  temp_noise : list float;
  rain_noise : list float;
  crop_noise : list float;
  future_temp_noise : list float;
  future_rain_noise : list float;
  future_health_noise : list float
}.

Definition sample_noise {rng} (normal : float -> float -> rng -> float * rng)
    (s : rng) : noise * rng :=
  let (a, s1) := draws normal 0 0.2 14 s in
  let (b, s2) := draws normal 0 3 14 s1 in
  let (c, s3) := draws normal 0 5 42 s2 in
  let (d, s4) := draws normal 0 0.3 26 s3 in
  let (e, s5) := draws normal 0 5 26 s4 in
  let (f, s6) := draws normal 0 6 26 s5 in
  ({| temp_noise := a; rain_noise := b; crop_noise := c;
      future_temp_noise := d; future_rain_noise := e;
      future_health_noise := f |}, s6).

(** The (region, year) pairs in the order of the two nested loops. *)
Definition region_years : list (string * Z) :=
  list_prod (keys regions) (Py.range 2010 2024).

(** The tables as a function of the draws. *)
Definition tables_of (w : noise) : tables :=
  let years := Py.range 2010 2024 in
  let future_years := Py.range 2024 2050 in
  {| t_regions := regions;
     t_climate_df :=
       {| Climate.Year := years;
          Climate.Temperature_Change :=
            zip_with (fun year n => 0.1 * Py.float_of_Z (year - 2010) + n)%float
              years (temp_noise w);
          Climate.Rainfall_Change :=
            zip_with (fun year n => Py.float_of_Z (-2 * (year - 2010)) + n)%float
              years (rain_noise w) |};
     t_crop_health_df := zip_with spec_crop_row region_years (crop_noise w);
     t_projections_df :=
       {| Projections.Year := future_years;
          Projections.Projected_Temp_Change :=
            zip_with (fun year n => 0.15 * Py.float_of_Z (year - 2010) + n)%float
              future_years (future_temp_noise w);
          Projections.Projected_Rainfall_Change :=
            zip_with (fun year n => Py.float_of_Z (-3 * (year - 2010)) + n)%float
              future_years (future_rain_noise w);
          Projections.Projected_Crop_Health :=
            zip_with spec_future_health future_years (future_health_noise w) |} |}.

(** ** Regional Overview tab: the map layer (lines 178-215) *)

(** The bind of [result]: an exception raised in [m] skips [k]. *)
Definition res_bind {A B} (m : result A) (k : A -> result B) : result B :=
  match m with
  | Ok a => k a
  | Raise e => Raise e
  end.

Local Notation "'try!' x ':=' m 'in' k" := (res_bind m (fun x => k))
  (at level 10, x name, m at level 200, k at level 200, only parsing).

(** [l[i]] on a list, for a non-negative index. *)
Definition getindex (l : list float) (i : nat) : result float :=
  match l !! i with
  | Some x => Ok x
  | None => Raise (Exception "IndexError" "list index out of range")
  end.

(** [{"type": "Polygon", "coordinates": [[...]]}] *)
Record geometry := {
  geometry_type : string;
  coordinates : list (list (list float))
}.

(** [{"type": "Feature", "geometry": ..., "properties": {"name": region}}] *)
Record feature := {
  feature_type : string;
  feature_geometry : geometry;
  feature_name : string
}.

(** A call [m.add_marker([lat, lon], region, font_size=12)]. *)
Record marker := {
  marker_location : list float;
  marker_popup : string;
  marker_font_size : Z
}.

(** The call [m.add_geojson(geojson, layer_name=region, style=...)]. *)
Record geojson_layer := {
  geojson_type : string;
  geojson_features : list feature;
  layer_name : string
}.

(** The body of the loop for one item of [regions.items()]: the feature, then
    the marker at the centre of the box. *)
Definition region_feature (region : string) (data : region_info)
  : result (feature * marker) :=
  let bbox := bbox data in
  try! sw0 := getindex bbox 0 in try! sw1 := getindex bbox 1 in
  try! se0 := getindex bbox 2 in try! se1 := getindex bbox 1 in
  try! ne0 := getindex bbox 2 in try! ne1 := getindex bbox 3 in
  try! nw0 := getindex bbox 0 in try! nw1 := getindex bbox 3 in
  try! cl0 := getindex bbox 0 in try! cl1 := getindex bbox 1 in
  let feature :=
    {| feature_type := "Feature";
       feature_geometry :=
         {| geometry_type := "Polygon";
            coordinates :=
              [[ [sw0; sw1]; [se0; se1]; [ne0; ne1]; [nw0; nw1]; [cl0; cl1] ]] |};
       feature_name := region |} in
  try! south := getindex bbox 1 in try! north := getindex bbox 3 in
  let center_lat := ((south + north) / Py.float_of_Z 2)%float in
  try! west := getindex bbox 0 in try! east := getindex bbox 2 in
  let center_lon := ((west + east) / Py.float_of_Z 2)%float in
  Ok (feature,
      {| marker_location := [center_lat; center_lon];
         marker_popup := region;
         marker_font_size := 12 |}).

(** The [for region, data in regions.items():] loop.  The last component is
    the loop variable [region], unbound until the first iteration. *)
Fixpoint features_loop (items : list (string * region_info))
    (features : list feature) (markers : list marker) (region : option string)
  : result (list feature * list marker * option string) :=
  match items with
  | [] => Ok (features, markers, region)
  | (region', data) :: rest =>
      try! fm := region_feature region' data in
      features_loop rest (features ++ [fm.1]) (markers ++ [fm.2]) (Some region')
  end.

(** The loop, then the single [add_geojson] call after it, which reads the
    loop variable. *)
Definition regions_map (regions : list (string * region_info))
  : result (list marker * geojson_layer) :=
  try! st := features_loop regions [] [] None in
  match st.2 with
  | None => Raise (Exception "NameError" "name 'region' is not defined")
  | Some region =>
      Ok (st.1.2,
          {| geojson_type := "FeatureCollection";
             geojson_features := st.1.1;
             layer_name := region |})
  end.

(** The feature of a region is the closed ring around its box: south-west,
    south-east, north-east, north-west and south-west again. *)
Definition is_box_feature (kd : string * region_info) (f : feature) : Prop :=
  feature_name f = kd.1 /\ feature_type f = "Feature" /\
  geometry_type (feature_geometry f) = "Polygon" /\
  exists w s e n rest,
    bbox kd.2 = w :: s :: e :: n :: rest /\
    coordinates (feature_geometry f) = [[ [w; s]; [e; s]; [e; n]; [w; n]; [w; s] ]].

(** The marker of a region carries its name and stands at the midpoint of
    its box, latitude first. *)
Definition is_center_marker (kd : string * region_info) (m : marker) : Prop :=
  marker_popup m = kd.1 /\ marker_font_size m = 12 /\
  exists w s e n rest,
    bbox kd.2 = w :: s :: e :: n :: rest /\
    marker_location m = [((s + n) / 2)%float; ((w + e) / 2)%float].

(** ** Frames built from a dict of columns *)

Inductive cell :=
  | CStr (s : string)
  | CInt (z : Z)
  | CFloat (f : float).

(** [pd.DataFrame(data)] for a dict of lists: the columns in order, or
    [ValueError] when their lengths differ. *)
Definition DataFrame (data : list (string * list cell))
  : result (list (string * list cell)) :=
  match data with
  | [] => Ok []
  | (_, c) :: rest =>
      if forallb (fun kc : string * list cell => Nat.eqb (length kc.2) (length c)) rest
      then Ok data
      else Raise (Exception "ValueError" "All arrays must be of the same length")
  end.

(** [df[name]] *)
Definition column (df : list (string * list cell)) (name : string) : option (list cell) :=
  snd <$> List.find (fun kc => String.eqb kc.1 name) df.

(** Lines 225-233. *)
Definition vulnerability_data (regions : list (string * region_info))
  : list (string * list cell) :=
  [ ("Region", map CStr (keys regions));
    ("Crop Type", [CStr "Wheat"; CStr "Maize"; CStr "Sugarcane"]);
    ("Temperature Risk", [CInt 3; CInt 2; CInt 4]);
    ("Drought Risk", [CInt 4; CInt 3; CInt 2]);
    ("Flood Risk", [CInt 1; CInt 2; CInt 3]);
    ("Overall Risk", [CFloat 3.2; CFloat 2.8; CFloat 3.0]) ].

(** Lines 609-617. *)
Definition vulnerability (regions : list (string * region_info))
  : list (string * list cell) :=
  [ ("Region", map CStr (keys regions ++ ["Other Areas"]));
    ("Latitude", [CFloat (-33.5); CFloat (-28.0); CFloat (-29.0); CFloat (-28.5)]);
    ("Longitude", [CFloat 19.5; CFloat 27.0; CFloat 31.0; CFloat 24.0]);
    ("Risk Level", [CStr "High"; CStr "Very High"; CStr "Medium"; CStr "Low"]);
    ("Risk Score", [CFloat 8.2; CFloat 9.1; CFloat 6.5; CFloat 3.2]);
    ("Main Threat", [CStr "Drought"; CStr "Heat Stress"; CStr "Flooding";
                     CStr "Moderate Change"]) ].

(** ** Crop Health tab: the NDVI series (lines 336-344) *)

Definition ndvi_values (region : string) : list float :=
  if String.eqb region "Western Cape Wheat" then
    [0.15; 0.45; 0.65; 0.75; 0.85; 0.82; 0.78; 0.70; 0.60; 0.40; 0.25; 0.18]%float
  else if String.eqb region "Free State Maize" then
    [0.20; 0.35; 0.60; 0.75; 0.85; 0.88; 0.90; 0.85; 0.75; 0.55; 0.35; 0.22]%float
  else
    [0.45; 0.55; 0.65; 0.75; 0.80; 0.82; 0.85; 0.84; 0.82; 0.78; 0.70; 0.60]%float.

Definition months : list string :=
  ["Jan"; "Feb"; "Mar"; "Apr"; "May"; "Jun"; "Jul"; "Aug"; "Sep"; "Oct"; "Nov"; "Dec"].

Definition ndvi_df (region : string) : result (list (string * list cell)) :=
  DataFrame [("Month", map CStr months); ("NDVI", map CFloat (ndvi_values region))].

(** ** Climate Trends tab: the regional temperature table (lines 448-458) *)

Record temp_row := {
  temp_Year : Z;
  Average_Temperature : float;   (* "Average Temperature (°C)" *)
  Max_Temperature : float;
  Min_Temperature : float
}.

(** [22.5 if region == "Western Cape Wheat" else 24.0 if region == "Free State Maize" else 26.5] *)
Definition base_temp (region : string) : float :=
  if String.eqb region "Western Cape Wheat" then 22.5%float
  else if String.eqb region "Free State Maize" then 24.0%float
  else 26.5%float.

(** The row appended for a year, from the draw made for it. *)
Definition temp_row_of (region : string) (year : Z) (n : float) : temp_row :=
  let base_temp := base_temp region in
  let change := (0.08 * Py.float_of_Z (year - 2010) + n)%float in
  {| temp_Year := year;
     Average_Temperature := (base_temp + change)%float;
     Max_Temperature := (base_temp + Py.float_of_Z 5 + change)%float;
     Min_Temperature := (base_temp - Py.float_of_Z 5 + change)%float |}.

Definition temp_data {rng} (normal : float -> float -> rng -> float * rng)
    (region : string) : M rng (list temp_row) :=
  for_each (Py.range 2010 2024) (fun year temp_data =>
    bind (normal 0%float 0.15%float)
      (fun n => ret (temp_data ++ [temp_row_of region year n]))) [].

(** One run of the script as far as the generator is concerned: the cached
    [load_data] at the top, then the table of the Climate Trends tab for the
    region selected there. *)
Definition script_run {rng} (normal : float -> float -> rng -> float * rng)
    (temp_region : string) (p : process rng)
  : (tables * list temp_row) * process rng :=
  let (t, p1) := cached_load_data rng normal p in
  let (rows, s') := temp_data normal temp_region (generator p1) in
  ((t, rows), {| cache := cache p1; generator := s'; computed := computed p1 |}).

(** ** Future Projections tab: the yield series (lines 587-595) *)

Definition yields (scenario : string) : list float :=
  let years := Py.range 2024 2050 in
  if Py.str_in "Low" scenario then
    map (fun year => Py.float_of_Z 100 - 0.5 * Py.float_of_Z (year - 2024))%float years
  else if Py.str_in "Moderate" scenario then
    map (fun year => Py.float_of_Z 100 - 1.0 * Py.float_of_Z (year - 2024))%float years
  else
    map (fun year => Py.float_of_Z 100 - 2.0 * Py.float_of_Z (year - 2024))%float years.

Definition yield_df (scenario : string) : result (list (string * list cell)) :=
  DataFrame [("Year", map CInt (Py.range 2024 2050));
             ("Projected Yield (%)", map CFloat (yields scenario))].

(** The options of the scenario radio. *)
Definition scenarios : list string :=
  ["Low Emissions (RCP 2.6)"; "Moderate Emissions (RCP 4.5)"; "High Emissions (RCP 8.5)"].

(** Every pair of neighbours of a list satisfies [r]. *)
Fixpoint adjacent_b {A} (r : A -> A -> bool) (l : list A) : bool :=
  match l with
  | a :: (b :: _) as l' => r a b && adjacent_b r l'
  | _ => true
  end.

(** * Properties *)

(** ** Floats *)

Lemma float_of_Z_60 : Py.float_of_Z 60 = 60%float.
Proof. vm_compute. reflexivity. Qed.

Lemma float_of_Z_40 : Py.float_of_Z 40 = 40%float.
Proof. vm_compute. reflexivity. Qed.

Lemma float_of_Z_80 : Py.float_of_Z 80 = 80%float.
Proof. vm_compute. reflexivity. Qed.

Lemma ltb_leb (a b : float) : (a <? b)%float = true -> (a <=? b)%float = true.
Proof.
  rewrite ltb_spec, leb_spec. unfold SFltb, SFleb.
  destruct (SFcompare _ _) as [[]|]; done.
Qed.

(** [max(a, b)] is at least [a] whenever [a] is a number, whatever [b] is
    (a NaN [b] is never strictly greater, so [a] is kept). *)
Lemma max_floor (a b : float) :
  (a <=? a)%float = true -> (a <=? Py.max a b)%float = true.
Proof.
  intros Ha. unfold Py.max.
  destruct (a <? b)%float eqn:E; [by apply ltb_leb | done].
Qed.

Lemma spec_crop_health_floor Y n : (60 <=? spec_crop_health Y n)%float = true.
Proof. apply max_floor. vm_compute. reflexivity. Qed.

Lemma spec_future_health_floor Y n : (40 <=? spec_future_health Y n)%float = true.
Proof. apply max_floor. vm_compute. reflexivity. Qed.

(** ** The generator in closed form *)

Section GeneratorFacts.

Variable rng : Type.
Variable normal : float -> float -> rng -> float * rng.

Lemma draws_length loc scale n s :
  length (draws normal loc scale n s).1 = n.
Proof.
  revert s. induction n as [|n IH]; intros s; simpl; [done|].
  destruct (normal loc scale s) as [x s1].
  specialize (IH s1). destruct (draws normal loc scale n s1) as [xs s2].
  simpl in *. by rewrite IH.
Qed.

Lemma draws_add loc scale a b s :
  draws normal loc scale (a + b) s =
  ((draws normal loc scale a s).1 ++
     (draws normal loc scale b (draws normal loc scale a s).2).1,
   (draws normal loc scale b (draws normal loc scale a s).2).2).
Proof.
  revert s. induction a as [|a IH]; intros s; simpl.
  - by destruct (draws normal loc scale b s).
  - destruct (normal loc scale s) as [x s1]. rewrite IH.
    destruct (draws normal loc scale a s1) as [xs s2]. simpl.
    by destruct (draws normal loc scale b s2).
Qed.

(** A comprehension whose body makes one draw per element. *)
Lemma comprehension_draws {A B} (g : A -> float -> B) loc scale xs s :
  comprehension (fun x => bind (normal loc scale) (fun n => ret (g x n))) xs s =
  (zip_with g xs (draws normal loc scale (length xs) s).1,
   (draws normal loc scale (length xs) s).2).
Proof.
  revert s. induction xs as [|x xs IH]; intros s; simpl; [done|].
  destruct (normal loc scale s) as [n s1]. rewrite IH.
  by destruct (draws normal loc scale (length xs) s1).
Qed.

(** A loop that appends one row per element, from one draw each. *)
Lemma for_each_append_draws {A B} (g : A -> float -> B) loc scale xs acc s :
  for_each xs
    (fun x acc => bind (normal loc scale) (fun n => ret (acc ++ [g x n]))) acc s =
  (acc ++ zip_with g xs (draws normal loc scale (length xs) s).1,
   (draws normal loc scale (length xs) s).2).
Proof.
  revert acc s. induction xs as [|x xs IH]; intros acc s; simpl.
  - by rewrite app_nil_r.
  - destruct (normal loc scale s) as [n s1]. rewrite IH.
    destruct (draws normal loc scale (length xs) s1) as [ns s2]. simpl.
    by rewrite <- app_assoc.
Qed.

Lemma zip_with_map_pair {A B C} (g : A -> B -> float -> C) (x : A) ys ns :
  zip_with (g x) ys ns = zip_with (fun p n => g p.1 p.2 n) (map (pair x) ys) ns.
Proof.
  revert ns. induction ys as [|y ys IH]; intros [|n ns]; simpl; [done..|].
  by rewrite IH.
Qed.

(** The two nested loops: one draw per pair, first loop outermost. *)
Lemma for_each_nested_draws {A B C} (g : A -> B -> float -> C)
    loc scale xs ys acc s :
  for_each xs (fun x acc =>
    for_each ys
      (fun y acc => bind (normal loc scale) (fun n => ret (acc ++ [g x y n])))
      acc) acc s =
  (acc ++ zip_with (fun p n => g p.1 p.2 n) (list_prod xs ys)
            (draws normal loc scale (length xs * length ys) s).1,
   (draws normal loc scale (length xs * length ys) s).2).
Proof.
  revert acc s. induction xs as [|x xs IH]; intros acc s; simpl.
  - by rewrite app_nil_r.
  - rewrite (for_each_append_draws (g x)), IH, draws_add. simpl.
    rewrite <- app_assoc. f_equal. f_equal.
    rewrite zip_with_app.
    + by rewrite zip_with_map_pair.
    + by rewrite length_map, draws_length.
Qed.

End GeneratorFacts.

Section LoadData.

Variable rng : Type.
Variable normal : float -> float -> rng -> float * rng.

Lemma years_length : length (Py.range 2010 2024) = 14%nat.
Proof. reflexivity. Qed.

Lemma future_years_length : length (Py.range 2024 2050) = 26%nat.
Proof. reflexivity. Qed.

Lemma map_max_zip_with (ys : list Z) (ns : list float) :
  map (fun h => Py.max (Py.float_of_Z 40) h)
    (zip_with (fun year n =>
       Py.float_of_Z 80 - 1.0 * Py.float_of_Z (year - 2010) + n)%float ys ns) =
  zip_with spec_future_health ys ns.
Proof.
  rewrite float_of_Z_40, float_of_Z_80.
  revert ns. induction ys as [|y ys IH]; intros [|n ns]; simpl; [done..|].
  by rewrite IH.
Qed.

Lemma zip_with_eta_pair {A B C} (g : A * B -> float -> C) l ns :
  zip_with (fun p n => g (p.1, p.2) n) l ns = zip_with g l ns.
Proof.
  revert ns. induction l as [|[x y] l IH]; intros [|n ns]; simpl; [done..|].
  by rewrite IH.
Qed.

(** [load_data] makes the draws of [sample_noise], in that order, and returns
    the tables [tables_of] builds from them. *)
Lemma load_data_closed_form (s : rng) :
  load_data normal s =
  (tables_of (sample_noise normal s).1, (sample_noise normal s).2).
Proof.
  unfold load_data, sample_noise, tables_of, region_years.
  rewrite float_of_Z_60.
  unfold bind at 1. rewrite comprehension_draws, years_length.
  destruct (draws normal 0 0.2 14 s) as [a s1]. cbn [fst snd].
  unfold bind at 1. rewrite comprehension_draws, years_length.
  destruct (draws normal 0 3 14 s1) as [b s2]. cbn [fst snd].
  unfold bind at 1.
  rewrite (for_each_nested_draws _ normal
             (fun region year n => spec_crop_row (region, year) n)).
  rewrite years_length. change (length (keys regions) * 14)%nat with 42%nat.
  destruct (draws normal 0 5 42 s2) as [c s3]. cbn [fst snd].
  unfold bind at 1. rewrite comprehension_draws, future_years_length.
  destruct (draws normal 0 0.3 26 s3) as [d s4]. cbn [fst snd].
  unfold bind at 1. rewrite comprehension_draws, future_years_length.
  destruct (draws normal 0 5 26 s4) as [e s5]. cbn [fst snd].
  unfold bind at 1. rewrite comprehension_draws, future_years_length.
  destruct (draws normal 0 6 26 s5) as [f s6]. cbn [fst snd].
  unfold ret. rewrite map_max_zip_with, app_nil_l.
  by rewrite (zip_with_eta_pair spec_crop_row).
Qed.

End LoadData.

(** ** The shape of the tables *)

(** Membership in a [range]. *)
Lemma range_In (a b y : Z) : In y (Py.range a b) <-> a <= y < b.
Proof.
  unfold Py.range. rewrite in_map_iff. split.
  - intros (i & <- & Hi). apply in_seq in Hi. lia.
  - intros Hy. exists (Z.to_nat (y - a)). split; [lia|]. apply in_seq. lia.
Qed.

Lemma range_length (a b : Z) : length (Py.range a b) = Z.to_nat (b - a).
Proof. unfold Py.range. by rewrite length_map, length_seq. Qed.

(** A [range] has no gap: its [i]-th element is [a + i]. *)
Lemma range_lookup (a b : Z) (i : nat) :
  (i < Z.to_nat (b - a))%nat -> Py.range a b !! i = Some (a + Z.of_nat i).
Proof.
  intros Hi. unfold Py.range. rewrite list_lookup_fmap.
  by rewrite lookup_seq_lt.
Qed.

Section Shape.

Variable rng : Type.
Variable normal : float -> float -> rng -> float * rng.

Lemma load_data_tables (s : rng) :
  (load_data normal s).1 = tables_of (sample_noise normal s).1.
Proof. by rewrite load_data_closed_form. Qed.

(** The six batches have the sizes of the tables they fill. *)
Lemma sample_noise_lengths (s : rng) :
  let w := (sample_noise normal s).1 in
  length (temp_noise w) = 14%nat /\ length (rain_noise w) = 14%nat /\
  length (crop_noise w) = 42%nat /\ length (future_temp_noise w) = 26%nat /\
  length (future_rain_noise w) = 26%nat /\ length (future_health_noise w) = 26%nat.
Proof.
  unfold sample_noise.
  pose proof (draws_length _ normal 0 0.2 14 s) as Ha.
  destruct (draws normal 0 0.2 14 s) as [a s1].
  pose proof (draws_length _ normal 0 3 14 s1) as Hb.
  destruct (draws normal 0 3 14 s1) as [b s2].
  pose proof (draws_length _ normal 0 5 42 s2) as Hc.
  destruct (draws normal 0 5 42 s2) as [c s3].
  pose proof (draws_length _ normal 0 0.3 26 s3) as Hd.
  destruct (draws normal 0 0.3 26 s3) as [d s4].
  pose proof (draws_length _ normal 0 5 26 s4) as He.
  destruct (draws normal 0 5 26 s4) as [e s5].
  pose proof (draws_length _ normal 0 6 26 s5) as Hf.
  destruct (draws normal 0 6 26 s5) as [f s6].
  by cbn in *.
Qed.

Lemma region_years_length : length region_years = 42%nat.
Proof. reflexivity. Qed.

Lemma crop_health_df_length (s : rng) :
  length (t_crop_health_df (load_data normal s).1) = 42%nat.
Proof.
  rewrite load_data_tables. cbn [tables_of t_crop_health_df].
  destruct (sample_noise_lengths s) as (_ & _ & Hc & _).
  by rewrite length_zip_with, region_years_length, Hc.
Qed.

(** Region and year of the rows are those of the pairs, in order. *)
Lemma crop_health_df_keys (s : rng) :
  map (fun r => (CropHealth.Region r, CropHealth.Year r))
    (t_crop_health_df (load_data normal s).1) = region_years.
Proof.
  rewrite load_data_tables. cbn [tables_of t_crop_health_df].
  destruct (sample_noise_lengths s) as (_ & _ & Hc & _).
  rewrite <- region_years_length in Hc. revert Hc.
  generalize (crop_noise (sample_noise normal s).1), region_years.
  intros ns l. revert ns. induction l as [|[r y] l IH]; intros [|n ns] ?;
    simplify_eq/=; [done|]. f_equal. by apply IH.
Qed.

End Shape.

Lemma Forall_zip_with_intro {A B C} (P : C -> Prop) (g : A -> B -> C) l k :
  (forall x y, P (g x y)) -> Forall P (zip_with g l k).
Proof.
  intros Hg. revert k. induction l as [|x l IH]; intros [|y k]; simpl;
    constructor; auto.
Qed.

(** What holds of every row of [crop_health_df]. *)
Lemma crop_health_df_rows {rng} (normal : float -> float -> rng -> float * rng) (s : rng) :
  Forall (fun r => In (CropHealth.Region r) (keys regions) /\
                   2010 <= CropHealth.Year r <= 2023 /\
                   (60 <=? CropHealth.Crop_Health_Index r)%float = true /\
                   CropHealth.Crop_Type r = crop_type (CropHealth.Region r))
         (t_crop_health_df (load_data normal s).1).
Proof.
  pose proof (crop_health_df_keys _ normal s) as Hk.
  assert (Hfl : Forall (fun r =>
                    (60 <=? CropHealth.Crop_Health_Index r)%float = true /\
                    CropHealth.Crop_Type r = crop_type (CropHealth.Region r))
                  (t_crop_health_df (load_data normal s).1)).
  { rewrite load_data_tables. apply Forall_zip_with_intro.
    intros. split; [apply spec_crop_health_floor|done]. }
  assert (Hry : Forall (fun p => In p.1 (keys regions) /\ 2010 <= p.2 <= 2023)
                  region_years).
  { apply List.Forall_forall. intros [r y] Hp. apply in_prod_iff in Hp as [Hr Hy].
    apply range_In in Hy. simpl. split; [done|lia]. }
  rewrite <- Hk in Hry. rewrite Forall_map in Hry.
  rewrite Forall_forall in *. intros r Hr.
  specialize (Hry r Hr). specialize (Hfl r Hr). cbn beta in Hry.
  destruct Hry as [? ?], Hfl as [? ?]. done.
Qed.

(** C1: whatever the draws, every crop-health index of the 42 historical rows
    (years 2010-2023, the three regions) is at least 60, and every one of the
    26 projected crop-health values is at least 40. *)
Theorem clamping_floors {rng} (normal : float -> float -> rng -> float * rng) (s : rng) :
  let t := (load_data normal s).1 in
  (length (t_crop_health_df t) = 42%nat /\
   Forall (fun r => In (CropHealth.Region r) (keys regions) /\
                    2010 <= CropHealth.Year r <= 2023 /\
                    (60 <=? CropHealth.Crop_Health_Index r)%float = true)
          (t_crop_health_df t)) /\
  (length (Projections.Projected_Crop_Health (t_projections_df t)) = 26%nat /\
   Projections.Year (t_projections_df t) = Py.range 2024 2050 /\
   Forall (fun h => (40 <=? h)%float = true)
          (Projections.Projected_Crop_Health (t_projections_df t))).
Proof.
  cbv zeta. split; [split|split; [|split]].
  - apply crop_health_df_length.
  - eapply Forall_impl; [apply crop_health_df_rows|]. intros r Hr; cbn beta in *. tauto.
  - rewrite load_data_tables. cbn [tables_of t_projections_df Projections.Projected_Crop_Health].
    destruct (sample_noise_lengths _ normal s) as (_ & _ & _ & _ & _ & Hf).
    by rewrite length_zip_with, future_years_length, Hf.
  - by rewrite load_data_tables.
  - rewrite load_data_tables. apply Forall_zip_with_intro.
    intros. apply spec_future_health_floor.
Qed.

(** Draws that are not numbers, or minus infinity, are clamped as well. *)
Example clamping_on_nan :
  map CropHealth.Crop_Health_Index
    (t_crop_health_df (load_data replay (replicate 200 nan)).1) =
  replicate 42 60%float.
Proof. vm_compute. reflexivity. Qed.

Example clamping_on_neg_infinity :
  Projections.Projected_Crop_Health
    (t_projections_df (load_data replay (replicate 200 neg_infinity)).1) =
  replicate 26 40%float.
Proof. vm_compute. reflexivity. Qed.

(** C2: the tables range over contiguous years with no gap: the historical
    years are exactly 2010..2023 (14 climate rows, every column of length 14;
    42 crop-health rows, 14 per region, one per year in order), the future
    years are exactly 2024..2049 (26 projection rows, every column of
    length 26). *)
Theorem contiguous_year_ranges {rng} (normal : float -> float -> rng -> float * rng) (s : rng) :
  let t := (load_data normal s).1 in
  let c := t_climate_df t in
  let h := t_crop_health_df t in
  let p := t_projections_df t in
  (Climate.Year c =
     [2010; 2011; 2012; 2013; 2014; 2015; 2016; 2017; 2018; 2019; 2020; 2021;
      2022; 2023] /\
   (forall i : nat, (i < 14)%nat -> Climate.Year c !! i = Some (2010 + Z.of_nat i)) /\
   length (Climate.Year c) = 14%nat /\
   length (Climate.Temperature_Change c) = 14%nat /\
   length (Climate.Rainfall_Change c) = 14%nat) /\
  (length h = 42%nat /\
   forall region, In region (keys regions) ->
     map CropHealth.Year
       (List.filter (fun r => String.eqb (CropHealth.Region r) region) h) =
     Climate.Year c) /\
  (Projections.Year p =
     [2024; 2025; 2026; 2027; 2028; 2029; 2030; 2031; 2032; 2033; 2034; 2035;
      2036; 2037; 2038; 2039; 2040; 2041; 2042; 2043; 2044; 2045; 2046; 2047;
      2048; 2049] /\
   (forall i : nat, (i < 26)%nat -> Projections.Year p !! i = Some (2024 + Z.of_nat i)) /\
   length (Projections.Year p) = 26%nat /\
   length (Projections.Projected_Temp_Change p) = 26%nat /\
   length (Projections.Projected_Rainfall_Change p) = 26%nat /\
   length (Projections.Projected_Crop_Health p) = 26%nat).
Proof.
  cbv zeta.
  destruct (sample_noise_lengths _ normal s) as (Ha & Hb & Hc & Hd & He & Hf).
  split; [|split].
  - rewrite load_data_tables.
    cbn [tables_of t_climate_df Climate.Year Climate.Temperature_Change
           Climate.Rainfall_Change].
    rewrite !length_zip_with, years_length, Ha, Hb.
    repeat split; try reflexivity.
    intros i Hi. by apply range_lookup.
  - split; [apply crop_health_df_length|].
    intros region Hin.
    pose proof (crop_health_df_keys _ normal s) as Hk.
    rewrite (load_data_tables _ normal s) at 2.
    cbn [tables_of t_climate_df Climate.Year].
    revert Hk. generalize (t_crop_health_df (load_data normal s).1). intros h Hk.
    transitivity (map snd (List.filter (fun p : string * Z => String.eqb p.1 region)
                             region_years)).
    + rewrite <- Hk. clear. induction h as [|r h IH]; simpl; [done|].
      destruct (String.eqb (CropHealth.Region r) region); simpl; by rewrite IH.
    + simpl in Hin. destruct Hin as [<-|[<-|[<-|[]]]]; reflexivity.
  - rewrite load_data_tables.
    cbn [tables_of t_projections_df Projections.Year Projections.Projected_Temp_Change
           Projections.Projected_Rainfall_Change Projections.Projected_Crop_Health].
    rewrite !length_zip_with, future_years_length, Hd, He, Hf.
    repeat split; try reflexivity.
    intros i Hi. by apply range_lookup.
Qed.

(** ** Substring test and crop types *)

Lemma append_nil (t : string) : String.append EmptyString t = t.
Proof. reflexivity. Qed.

Lemma append_cons (c : Ascii.ascii) (s t : string) :
  String.append (String c s) t = String c (String.append s t).
Proof. reflexivity. Qed.

Lemma startswith_spec (sub s : string) :
  Py.startswith sub s = true <-> exists post, s = String.append sub post.
Proof.
  revert s. induction sub as [|a sub IH]; intros s; simpl.
  - split; [intros _; by exists s|done].
  - destruct s as [|b s].
    + split; [done|]. intros [post Hp]. rewrite append_cons in Hp. discriminate.
    + destruct (Ascii.eqb_spec a b) as [->|Hne].
      * rewrite IH. split; intros [post Hp]; exists post;
          rewrite append_cons in *; congruence.
      * split; [done|]. intros [post Hp]. rewrite append_cons in Hp. congruence.
Qed.

(** [sub in s] decides the occurrence of [sub] in [s]. *)
Lemma str_in_spec (sub s : string) :
  Py.str_in sub s = true <-> Substring sub s.
Proof.
  split.
  - induction s as [|c s IH]; simpl; rewrite orb_true_iff.
    + intros [H|H]; [|done]. apply startswith_spec in H as [post Hp].
      by exists EmptyString, post.
    + intros [H|H].
      * apply startswith_spec in H as [post Hp]. by exists EmptyString, post.
      * destruct (IH H) as (pre & post & ->). by exists (String c pre), post.
  - intros (pre & post & ->). induction pre as [|c pre IH].
    + rewrite append_nil.
      assert (Py.startswith sub (String.append sub post) = true) as Hs
        by (apply startswith_spec; by exists post).
      destruct (String.append sub post); simpl; by rewrite Hs.
    + rewrite append_cons. simpl. by rewrite IH, orb_true_r.
Qed.

Lemma str_in_false (sub s : string) :
  Py.str_in sub s = false <-> ~ Substring sub s.
Proof.
  rewrite <- str_in_spec. by destruct (Py.str_in sub s).
Qed.

(** C8: the crop type of any region name is "Wheat" if the name contains
    "Wheat", otherwise "Maize" if it contains "Maize", otherwise "Sugarcane";
    a name containing neither substring is assigned Sugarcane. *)
Theorem crop_type_default (region : string) :
  (Substring "Wheat" region /\ crop_type region = "Wheat") \/
  (~ Substring "Wheat" region /\ Substring "Maize" region /\
   crop_type region = "Maize") \/
  (~ Substring "Wheat" region /\ ~ Substring "Maize" region /\
   crop_type region = "Sugarcane").
Proof.
  unfold crop_type.
  destruct (Py.str_in "Wheat" region) eqn:Hw.
  - left. by apply str_in_spec in Hw.
  - apply str_in_false in Hw. destruct (Py.str_in "Maize" region) eqn:Hm.
    + right; left. by apply str_in_spec in Hm.
    + right; right. by apply str_in_false in Hm.
Qed.

Example crop_type_unrelated_name : crop_type "Limpopo Citrus" = "Sugarcane".
Proof. reflexivity. Qed.

Example crop_type_both : crop_type "Maize and Wheat" = "Wheat".
Proof. reflexivity. Qed.

Example crop_type_case_sensitive : crop_type "free state maize" = "Sugarcane".
Proof. reflexivity. Qed.

Lemma crop_type_of_regions :
  map crop_type (keys regions) = ["Wheat"; "Maize"; "Sugarcane"].
Proof. reflexivity. Qed.

(** C3: the region table has exactly the three keys "Western Cape Wheat",
    "Free State Maize" and "KZN Sugarcane"; every crop-health row is for one
    of them and has the crop type derived from the region name, one of Wheat,
    Maize and Sugarcane and a substring of that name; rows for the same region
    have the same crop type. *)
Theorem region_set_and_crop_types {rng} (normal : float -> float -> rng -> float * rng)
    (s : rng) :
  let t := (load_data normal s).1 in
  let h := t_crop_health_df t in
  keys (t_regions t) = ["Western Cape Wheat"; "Free State Maize"; "KZN Sugarcane"] /\
  NoDup (keys (t_regions t)) /\
  map crop_type (keys (t_regions t)) = ["Wheat"; "Maize"; "Sugarcane"] /\
  Forall (fun r => In (CropHealth.Region r) (keys (t_regions t)) /\
                   CropHealth.Crop_Type r = crop_type (CropHealth.Region r) /\
                   In (CropHealth.Crop_Type r) ["Wheat"; "Maize"; "Sugarcane"] /\
                   Substring (CropHealth.Crop_Type r) (CropHealth.Region r)) h /\
  (forall region, In region (keys (t_regions t)) ->
     exists r, In r h /\ CropHealth.Region r = region) /\
  (forall r1 r2, In r1 h -> In r2 h ->
     CropHealth.Region r1 = CropHealth.Region r2 ->
     CropHealth.Crop_Type r1 = CropHealth.Crop_Type r2).
Proof.
  cbv zeta.
  assert (Hreg : t_regions (load_data normal s).1 = regions)
    by (by rewrite load_data_tables).
  pose proof (crop_health_df_rows normal s) as Hrows.
  rewrite Hreg.
  split; [reflexivity|]. split; [apply (bool_decide_unpack _); by vm_compute|].
  split; [reflexivity|]. split; [|split].
  - eapply Forall_impl; [exact Hrows|]. cbn beta.
    intros r (Hin & _ & _ & Hct). rewrite Hct. split; [done|]. split; [done|].
    simpl in Hin. destruct Hin as [<-|[<-|[<-|[]]]];
      (split; [cbn; tauto|apply str_in_spec; reflexivity]).
  - intros region Hin.
    pose proof (crop_health_df_keys _ normal s) as Hk.
    assert (In (region, 2010) region_years) as Hp.
    { apply in_prod_iff. split; [done|]. apply range_In. lia. }
    rewrite <- Hk in Hp. apply in_map_iff in Hp as (r & Hr & Hin').
    exists r. split; [done|]. congruence.
  - intros r1 r2 H1 H2 Heq. rewrite Forall_forall in Hrows.
    apply list_elem_of_In in H1, H2.
    destruct (Hrows r1 H1) as (_ & _ & _ & ->).
    destruct (Hrows r2 H2) as (_ & _ & _ & ->). by rewrite Heq.
Qed.

(** ** One draw per (region, year) *)

(** The draws used for the crop-health rows are the 42 made after the 28 of
    the climate table. *)
Lemma crop_noise_draws {rng} (normal : float -> float -> rng -> float * rng) (s : rng) :
  crop_noise (sample_noise normal s).1 =
  (draws normal 0 5 42 (draws normal 0 3 14 (draws normal 0 0.2 14 s).2).2).1.
Proof.
  unfold sample_noise.
  destruct (draws normal 0 0.2 14 s) as [a s1]. cbn [snd].
  destruct (draws normal 0 3 14 s1) as [b s2]. cbn [snd].
  destruct (draws normal 0 5 42 s2) as [c s3].
  destruct (draws normal 0 0.3 26 s3) as [d s4].
  destruct (draws normal 0 5 26 s4) as [e s5].
  by destruct (draws normal 0 6 26 s5) as [f s6].
Qed.

(** C5: for every region and historical year the crop-health index is
    [max(60, 80 - 0.8*(Y-2010) + noise)], where the noise is the draw made
    for that (region, year) pair: the i-th pair of the nested loops takes the
    i-th of 42 successive draws.  The formula takes the year and the draw
    only: rows with the same year and equal draws have equal indices,
    whatever their regions. *)
Theorem crop_health_same_formula {rng} (normal : float -> float -> rng -> float * rng)
    (s : rng) :
  let h := t_crop_health_df (load_data normal s).1 in
  let s2 := (draws normal 0 3 14 (draws normal 0 0.2 14 s).2).2 in
  let ns := (draws normal 0 5 42 s2).1 in
  length ns = 42%nat /\ length region_years = 42%nat /\
  h = zip_with spec_crop_row region_years ns /\
  (forall (i : nat) region year, region_years !! i = Some (region, year) ->
     exists n, ns !! i = Some n /\
       h !! i = Some {| CropHealth.Region := region;
                        CropHealth.Year := year;
                        CropHealth.Crop_Health_Index :=
                          Py.max 60 (80 - 0.8 * Py.float_of_Z (year - 2010) + n)%float;
                        CropHealth.Crop_Type := crop_type region |}) /\
  (forall (i j : nat) ri rj ni nj,
     h !! i = Some ri -> h !! j = Some rj -> ns !! i = Some ni -> ns !! j = Some nj ->
     CropHealth.Year ri = CropHealth.Year rj -> ni = nj ->
     CropHealth.Crop_Health_Index ri = CropHealth.Crop_Health_Index rj).
Proof.
  cbv zeta.
  set (ns := (draws normal 0 5 42 _).1).
  assert (Hlen : length ns = 42%nat) by apply draws_length.
  assert (Hh : t_crop_health_df (load_data normal s).1 =
               zip_with spec_crop_row region_years ns).
  { rewrite load_data_tables. cbn [tables_of t_crop_health_df].
    by rewrite crop_noise_draws. }
  rewrite Hh. split; [done|]. split; [reflexivity|]. split; [done|]. split.
  - intros i region year Hi.
    assert (i < 42)%nat as Hlt.
    { apply lookup_lt_Some in Hi. by rewrite region_years_length in Hi. }
    destruct (lookup_lt_is_Some_2 ns i) as [n Hn]; [lia|].
    exists n. split; [done|].
    rewrite lookup_zip_with, Hi, Hn. reflexivity.
  - intros i j ri rj ni nj Hi Hj Hni Hnj Hy ->.
    apply lookup_zip_with_Some in Hi as ([r1 y1] & n1 & -> & _ & Hn1).
    apply lookup_zip_with_Some in Hj as ([r2 y2] & n2 & -> & _ & Hn2).
    simpl in *. congruence.
Qed.

(** ** Deterministic test mode *)

Section ZeroNoise.

Variable rng : Type.
Variable normal : float -> float -> rng -> float * rng.
Hypothesis normal_zero : forall loc scale s, (normal loc scale s).1 = 0%float.

Lemma draws_zero loc scale n s :
  (draws normal loc scale n s).1 = replicate n 0%float.
Proof.
  revert s. induction n as [|n IH]; intros s; simpl; [done|].
  pose proof (normal_zero loc scale s) as Hz.
  destruct (normal loc scale s) as [x s1]. simpl in Hz. subst x.
  specialize (IH s1). destruct (draws normal loc scale n s1) as [xs s2].
  simpl in *. by rewrite IH.
Qed.

Lemma sample_noise_zero (s : rng) :
  (sample_noise normal s).1 =
  {| temp_noise := replicate 14 0%float; rain_noise := replicate 14 0%float;
     crop_noise := replicate 42 0%float; future_temp_noise := replicate 26 0%float;
     future_rain_noise := replicate 26 0%float;
     future_health_noise := replicate 26 0%float |}.
Proof.
  unfold sample_noise.
  pose proof (draws_zero 0 0.2 14 s) as Ha.
  destruct (draws normal 0 0.2 14 s) as [a s1].
  pose proof (draws_zero 0 3 14 s1) as Hb.
  destruct (draws normal 0 3 14 s1) as [b s2].
  pose proof (draws_zero 0 5 42 s2) as Hc.
  destruct (draws normal 0 5 42 s2) as [c s3].
  pose proof (draws_zero 0 0.3 26 s3) as Hd.
  destruct (draws normal 0 0.3 26 s3) as [d s4].
  pose proof (draws_zero 0 5 26 s4) as He.
  destruct (draws normal 0 5 26 s4) as [e s5].
  pose proof (draws_zero 0 6 26 s5) as Hf.
  destruct (draws normal 0 6 26 s5) as [f s6].
  cbn [fst] in *. by subst.
Qed.

End ZeroNoise.

(** C4: when every draw is 0.0, the temperature anomaly of 2010 is exactly
    0.0 and that of 2020 exactly 1.0 (formula 0.1*(Y-2010)), and the projected
    temperature anomaly of 2024 is 0.15*(2024-2010), which is exactly 2.1. *)
Theorem zero_noise_expected_values {rng} (normal : float -> float -> rng -> float * rng)
    (s : rng) :
  (forall loc scale s', (normal loc scale s').1 = 0%float) ->
  let t := (load_data normal s).1 in
  let c := t_climate_df t in
  let p := t_projections_df t in
  (Climate.Year c !! 0%nat = Some 2010 /\
   Climate.Temperature_Change c !! 0%nat = Some 0%float) /\
  (Climate.Year c !! 10%nat = Some 2020 /\
   Climate.Temperature_Change c !! 10%nat = Some 1%float) /\
  (Projections.Year p !! 0%nat = Some 2024 /\
   Projections.Projected_Temp_Change p !! 0%nat =
     Some (0.15 * Py.float_of_Z (2024 - 2010))%float /\
   (0.15 * Py.float_of_Z (2024 - 2010))%float = 2.1%float).
Proof.
  intros Hz. cbv zeta. rewrite load_data_tables, (sample_noise_zero _ normal Hz).
  vm_compute. repeat split; reflexivity.
Qed.

(** The test mode itself: the source that always draws 0.0. *)
Lemma zero_noise_expected_values_witness :
  let t := (load_data zero_noise tt).1 in
  let c := t_climate_df t in
  let p := t_projections_df t in
  (Climate.Year c !! 0%nat = Some 2010 /\
   Climate.Temperature_Change c !! 0%nat = Some 0%float) /\
  (Climate.Year c !! 10%nat = Some 2020 /\
   Climate.Temperature_Change c !! 10%nat = Some 1%float) /\
  (Projections.Year p !! 0%nat = Some 2024 /\
   Projections.Projected_Temp_Change p !! 0%nat =
     Some (0.15 * Py.float_of_Z (2024 - 2010))%float /\
   (0.15 * Py.float_of_Z (2024 - 2010))%float = 2.1%float).
Proof.
  apply (zero_noise_expected_values zero_noise tt).
  intros loc scale s'. reflexivity.
Defined.

(** The same values by running the generator on the zero source. *)
Example zero_noise_temperatures :
  Climate.Temperature_Change (t_climate_df (load_data zero_noise tt).1) =
  [0; 0.1; 0.2; 0.30000000000000004; 0.4; 0.5; 0.6000000000000001;
   0.7000000000000001; 0.8; 0.9; 1; 1.1; 1.2000000000000002; 1.3]%float.
Proof. vm_compute. reflexivity. Qed.

(** ** The cache *)

Section CacheFacts.

Variable rng : Type.
Variable normal : float -> float -> rng -> float * rng.

(** Once the entry is there, an invocation returns it and changes nothing. *)
Lemma cached_load_data_hit (p : process rng) r :
  cache p = Some r -> cached_load_data rng normal p = (r, p).
Proof. intros H. unfold cached_load_data. by rewrite H. Qed.

Lemma invocations_hit (n : nat) (p : process rng) r :
  cache p = Some r -> invocations rng normal n p = (replicate n r, p).
Proof.
  intros H. induction n as [|n IH]; simpl; [done|].
  by rewrite (cached_load_data_hit p r H), IH.
Qed.

(** The first invocation fills the cache with what [load_data] returns. *)
Lemma cached_load_data_miss (p : process rng) :
  cache p = None ->
  cached_load_data rng normal p =
  ((load_data normal (generator p)).1,
   {| cache := Some (load_data normal (generator p)).1;
      generator := (load_data normal (generator p)).2;
      computed := S (computed p) |}).
Proof.
  intros H. unfold cached_load_data. rewrite H.
  by destruct (load_data normal (generator p)).
Qed.

(** An invocation leaves an entry in the cache, and never removes one. *)
Lemma cached_load_data_filled (p : process rng) :
  cache (cached_load_data rng normal p).2 = Some (cached_load_data rng normal p).1.
Proof.
  destruct (cache p) as [r|] eqn:H.
  - by rewrite (cached_load_data_hit p r H).
  - by rewrite (cached_load_data_miss p H).
Qed.

End CacheFacts.

(** C7: in a process whose cache is empty, the first invocation runs the body
    of [load_data] once; that invocation and every later one return the same
    four tables, the generator is not consulted again and the body does not
    run again. *)
Theorem cache_hit {rng} (normal : float -> float -> rng -> float * rng)
    (s : rng) (n : nat) :
  let p0 := {| cache := None; generator := s; computed := 0 |} in
  let first := cached_load_data rng normal p0 in
  let all := invocations rng normal (S n) p0 in
  first.1 = (load_data normal s).1 /\
  all.1 = replicate (S n) first.1 /\
  all.2 = first.2 /\
  cache all.2 = Some first.1 /\
  generator all.2 = (load_data normal s).2 /\
  computed all.2 = 1%nat.
Proof.
  cbv zeta.
  set (p0 := {| cache := None; generator := s; computed := 0 |}).
  pose proof (cached_load_data_miss rng normal p0 eq_refl) as Hfirst.
  pose proof (cached_load_data_filled rng normal p0) as Hfilled.
  cbn [invocations].
  destruct (cached_load_data rng normal p0) as [r p1].
  cbn [fst snd] in *.
  rewrite (invocations_hit rng normal n p1 r Hfilled). cbn [fst snd].
  injection Hfirst as -> ->. cbn. done.
Qed.

(** From any state of the process, every invocation after the first returns
    what the first returned. *)
Lemma invocations_constant {rng} (normal : float -> float -> rng -> float * rng)
    (p : process rng) (n : nat) :
  (invocations rng normal (S n) p).1 =
  replicate (S n) (cached_load_data rng normal p).1.
Proof.
  pose proof (cached_load_data_filled rng normal p) as Hfilled.
  cbn [invocations]. destruct (cached_load_data rng normal p) as [r p1].
  cbn [fst snd] in *. by rewrite (invocations_hit rng normal n p1 r Hfilled).
Qed.

(** Without the cache two calls sample afresh: on a tape of distinct draws
    they differ, with it they do not. *)
Example uncached_calls_differ :
  let tape := map Py.float_of_Z (Py.range 0 400) in
  (load_data replay tape).1 <> (load_data replay (load_data replay tape).2).1.
Proof.
  cbv zeta. intros H.
  apply (f_equal (fun t => hd 0%float (Climate.Temperature_Change (t_climate_df t)))) in H.
  vm_compute in H. discriminate.
Qed.

(** ** The season selection *)

(** The season after a run, from the buttons and the season before it: the
    last button pressed among Planting, Growth, Harvest wins; with none, the
    stored season stays, "Planting" when there is none. *)
Lemma select_season_lookup (b : buttons) (st : gmap string value) :
  crop_season (select_season b st) =
  Some (if harvest_btn b then VStr "Harvest"
        else if growth_btn b then VStr "Growth"
        else if planting_btn b then VStr "Planting"
        else default (VStr "Planting") (st !! "crop_season")).
Proof.
  unfold crop_season, select_season.
  destruct b as [[] [] []]; cbn [planting_btn growth_btn harvest_btn];
    rewrite ?lookup_insert_eq; try done;
    destruct (st !! "crop_season") eqn:E; by rewrite ?lookup_insert_eq, ?E.
Qed.

(** The run touches no other entry of the session state. *)
Lemma select_season_frame (b : buttons) (st : gmap string value) (key : string) :
  key <> "crop_season" -> select_season b st !! key = st !! key.
Proof.
  intros Hne. unfold select_season.
  destruct b as [[] [] []]; cbn [planting_btn growth_btn harvest_btn];
    repeat (rewrite ?lookup_insert_eq; first
      [ rewrite lookup_insert_ne by done
      | match goal with |- context [match ?o with _ => _ end] => destruct o end
      | done ]).
Qed.

Lemma select_season_valid (b : buttons) (st : gmap string value) :
  crop_season st = None \/ valid_season (crop_season st) ->
  valid_season (crop_season (select_season b st)).
Proof.
  intros Hst. rewrite select_season_lookup.
  destruct (harvest_btn b); [by exists Harvest|].
  destruct (growth_btn b); [by exists Growth|].
  destruct (planting_btn b); [by exists Planting|].
  unfold crop_season in Hst. destruct Hst as [->|[k ->]]; [by exists Planting|by exists k].
Qed.

Lemma session_snoc st0 runs b :
  session st0 (runs ++ [b]) = select_season b (session st0 runs).
Proof. unfold session. by rewrite foldl_app. Qed.

Lemma session_valid st0 runs :
  crop_season st0 = None ->
  crop_season (session st0 runs) = None \/ valid_season (crop_season (session st0 runs)).
Proof.
  intros H0. induction runs as [|b runs IH] using rev_ind; [by left|].
  right. rewrite session_snoc. by apply select_season_valid.
Qed.

Lemma session_unpressed st0 runs :
  crop_season st0 = None -> runs <> [] ->
  Forall (fun r => pressed r = false) runs ->
  crop_season (session st0 runs) = Some (VStr "Planting").
Proof.
  intros H0. induction runs as [|b runs IH] using rev_ind; [done|].
  intros _ Hall. apply Forall_app in Hall as [Hruns Hb].
  rewrite Forall_singleton in Hb.
  rewrite session_snoc, select_season_lookup.
  unfold pressed in Hb. destruct b as [[] [] []]; simplify_eq/=.
  unfold crop_season in *.
  destruct runs as [|r runs]; [cbn; by rewrite H0|].
  by rewrite IH.
Qed.

Lemma session_frame st0 runs (key : string) :
  key <> "crop_season" -> session st0 runs !! key = st0 !! key.
Proof.
  intros Hne. induction runs as [|b runs IH] using rev_ind; [done|].
  by rewrite session_snoc, select_season_frame.
Qed.

(** C10: in a session that starts without a stored season, after every run
    of the script the selected season is one of Planting, Growth and Harvest;
    it is "Planting" as long as no button has been pressed in the session;
    pressing a button sets it to exactly that button's value; a run without a
    press keeps the season of the run before; no other entry of the session
    state is touched. *)
Theorem season_always_valid (st0 : gmap string value) (runs : list buttons) (b : buttons) :
  crop_season st0 = None ->
  let st := session st0 (runs ++ [b]) in
  (exists k, crop_season st = Some (VStr (button_value k))) /\
  (Forall (fun r => pressed r = false) (runs ++ [b]) ->
     crop_season st = Some (VStr "Planting")) /\
  (forall k, b = press k -> crop_season st = Some (VStr (button_value k))) /\
  (pressed b = false -> runs <> [] -> crop_season st = crop_season (session st0 runs)) /\
  (forall key : string, key <> "crop_season" -> st !! key = st0 !! key).
Proof.
  intros H0. cbv zeta. repeat split.
  - rewrite session_snoc. apply select_season_valid. by apply session_valid.
  - intros Hall. apply session_unpressed; [done| |done]. by destruct runs.
  - intros k ->. rewrite session_snoc, select_season_lookup. by destruct k.
  - intros Hb Hne. rewrite session_snoc, select_season_lookup.
    unfold pressed in Hb. destruct b as [[] [] []]; simplify_eq/=.
    destruct (session_valid st0 runs H0) as [Hnone|[k Hk]].
    + exfalso. revert Hnone. clear -Hne.
      induction runs as [|r runs _] using rev_ind; [done|].
      rewrite session_snoc, select_season_lookup. done.
    + unfold crop_season in *. by rewrite Hk.
  - intros key Hne. by apply session_frame.
Qed.

(** A session of three runs: the page opens, "Growth" is clicked, then
    "Harvest". *)
Lemma season_always_valid_witness :
  let st := session ∅ ([no_press; press Growth] ++ [press Harvest]) in
  (exists k, crop_season st = Some (VStr (button_value k))) /\
  (Forall (fun r => pressed r = false) ([no_press; press Growth] ++ [press Harvest]) ->
     crop_season st = Some (VStr "Planting")) /\
  (forall k, press Harvest = press k -> crop_season st = Some (VStr (button_value k))) /\
  (pressed (press Harvest) = false -> [no_press; press Growth] <> [] ->
     crop_season st = crop_season (session ∅ [no_press; press Growth])) /\
  (forall key : string, key <> "crop_season" -> st !! key = (∅ : gmap string value) !! key).
Proof.
  apply (season_always_valid ∅ [no_press; press Growth] (press Harvest)).
  reflexivity.
Defined.

Example session_opening : crop_season (session ∅ [no_press]) = Some (VStr "Planting").
Proof. reflexivity. Qed.

Example session_growth_then_idle :
  crop_season (session ∅ [no_press; press Growth; no_press; no_press]) =
  Some (VStr "Growth").
Proof. reflexivity. Qed.

(** Were several buttons true in one run, the last assignment would win. *)
Example session_all_buttons :
  crop_season (session ∅ [{| planting_btn := true; growth_btn := true;
                             harvest_btn := true |}]) = Some (VStr "Harvest").
Proof. reflexivity. Qed.

(** ** The image block *)

(** Every region of the table has an image URL. *)
Lemma image_urls_regions (region : string) :
  In region (keys regions) -> is_Some (image_urls !! region).
Proof.
  simpl. intros [<-|[<-|[<-|[]]]]; by eexists.
Qed.

Section ImageBlockFacts.

Variable payload : Type.
Variable image : Type.
Variable requests_get : string -> bool -> result (response payload).
Variable Image_open : payload -> result image.
Variable encode : image -> result unit.

(** C6: whatever the HTTP client, the image library and the encoding do, no
    exception leaves the block.  When the fetch returns status 200 and the
    payload opens and encodes, the fetched image is shown and nothing else;
    when the status is not 200, or the fetch, the opening or the encoding
    raises, a warning carrying the error text and the fixed placeholder
    image are shown, and no fetched image. *)
Theorem image_fetch_recovered (region season : string) (year : Z) :
  let out := image_block payload image requests_get Image_open encode region season year in
  let fallback (msg : string) : list (element image) :=
    [ WarningElement ("Unable to load satellite image. Error: " +:+ msg);
      ImageUrlElement placeholder_url true ] in
  out.2 = Ok tt /\
  (forall url resp img,
     image_urls !! region = Some url -> requests_get url true = Ok resp ->
     status_code resp = 200 -> Image_open (raw resp) = Ok img -> encode img = Ok tt ->
     out.1 = [ ImageElement img
                 ("Sentinel-2 Imagery: " +:+ region +:+ " (" +:+ season +:+ " " +:+
                  Py.str year +:+ ")") 500 ]) /\
  (forall url resp,
     image_urls !! region = Some url -> requests_get url true = Ok resp ->
     status_code resp <> 200 ->
     out.1 = fallback ("HTTP Error: " +:+ Py.str (status_code resp))) /\
  (forall url e,
     image_urls !! region = Some url -> requests_get url true = Raise e ->
     out.1 = fallback (exn_str e)) /\
  (forall url resp e,
     image_urls !! region = Some url -> requests_get url true = Ok resp ->
     status_code resp = 200 -> Image_open (raw resp) = Raise e ->
     out.1 = fallback (exn_str e)) /\
  (forall url resp img e,
     image_urls !! region = Some url -> requests_get url true = Ok resp ->
     status_code resp = 200 -> Image_open (raw resp) = Ok img -> encode img = Raise e ->
     out.1 = fallback (exn_str e)) /\
  ((exists img caption, out.1 = [ImageElement img caption 500]) \/
   (exists msg, out.1 = fallback msg)).
Proof.
  cbv zeta. unfold image_block, getitem, st_image, st_warning, st_image_url, call, raise.
  destruct (image_urls !! region) as [url|] eqn:Hurl; cbn.
  2: { repeat (split; [by (intros; simplify_eq; congruence)|]). right. by eexists. }
  destruct (requests_get url true) as [resp|e] eqn:Hget; cbn.
  2: { repeat (split; [by (intros; simplify_eq; congruence)|]). right. by eexists. }
  destruct (Z.eqb_spec (status_code resp) 200) as [H200|H200]; cbn.
  2: { repeat (split; [by (intros; simplify_eq; congruence)|]). right. by eexists. }
  destruct (Image_open (raw resp)) as [img|e] eqn:Hopen; cbn.
  2: { repeat (split; [by (intros; simplify_eq; congruence)|]). right. by eexists. }
  destruct (encode img) as [[]|e] eqn:Henc; cbn.
  2: { repeat (split; [by (intros; simplify_eq; congruence)|]). right. by eexists. }
  repeat (split; [by (intros; simplify_eq; congruence)|]). left. by do 2 eexists.
Qed.

End ImageBlockFacts.

(** A fetch answered by 404. *)
Example image_block_404 :
  image_block unit unit
    (fun _ _ => Ok {| status_code := 404; raw := tt |}) (fun _ => Ok tt) (fun _ => Ok tt)
    "KZN Sugarcane" "Planting" 2020 =
  ([ WarningElement "Unable to load satellite image. Error: HTTP Error: 404";
     ImageUrlElement placeholder_url true ], Ok tt).
Proof. vm_compute. reflexivity. Qed.

(** A fetch that fails in transport. *)
Example image_block_network_error :
  image_block unit unit
    (fun _ _ => Raise (Exception "ConnectionError" "connection refused"))
    (fun _ => Ok tt) (fun _ => Ok tt)
    "Free State Maize" "Growth" 2015 =
  ([ WarningElement "Unable to load satellite image. Error: connection refused";
     ImageUrlElement placeholder_url true ], Ok tt).
Proof. vm_compute. reflexivity. Qed.

(** A fetch that succeeds. *)
Example image_block_success :
  image_block unit unit
    (fun _ _ => Ok {| status_code := 200; raw := tt |}) (fun _ => Ok tt) (fun _ => Ok tt)
    "Western Cape Wheat" "Harvest" 2023 =
  ([ ImageElement tt "Sentinel-2 Imagery: Western Cape Wheat (Harvest 2023)" 500 ], Ok tt).
Proof. vm_compute. reflexivity. Qed.

(** ** Division by one *)

Lemma div_eucl_eq (a b : Z) : Z.div_eucl a b = (a / b, a mod b).
Proof. unfold Z.div, Z.modulo. by destruct (Z.div_eucl a b). Qed.

Lemma Prim2SF_one : Prim2SF 1 = S754_finite false 4503599627370496 (-52).
Proof. vm_compute. reflexivity. Qed.

Lemma Prim2SF_zero : Prim2SF 0 = S754_zero false.
Proof. vm_compute. reflexivity. Qed.

(** Rounding a mantissa that already fits leaves it as it is. *)
Lemma binary_round_aux_canonical (s : bool) (m : positive) (e : Z) :
  bounded prec emax m e = true ->
  binary_round_aux prec emax s (Z.pos m) e loc_Exact = S754_finite s m e.
Proof.
  unfold bounded, canonical_mantissa. intros Hb.
  apply andb_prop in Hb as [Hc He]. apply Z.eqb_eq in Hc.
  unfold binary_round_aux, shr_fexp. cbn [Zdigits2 shr_record_of_loc].
  rewrite Hc, Z.sub_diag. cbn [shr shr_m loc_of_shr_record round_nearest_even Zdigits2
                                 shr_record_of_loc].
  rewrite Hc, Z.sub_diag. cbn [shr shr_m]. by rewrite He.
Qed.

(** Rounding twice a mantissa that fits, at the exponent below. *)
Lemma binary_round_aux_double (s : bool) (m : positive) (e : Z) :
  bounded prec emax m e = true -> digits2_pos m = 53%positive ->
  binary_round_aux prec emax s (Z.pos m~0) (e - 1) loc_Exact = S754_finite s m e.
Proof.
  unfold bounded, canonical_mantissa. intros Hb Hd.
  apply andb_prop in Hb as [Hc He]. apply Z.eqb_eq in Hc.
  unfold binary_round_aux, shr_fexp. cbn [Zdigits2 shr_record_of_loc digits2_pos].
  rewrite Hd in *.
  assert (fexp prec emax (Z.pos (Pos.succ 53) + (e - 1)) - (e - 1) = 1) as ->.
  { revert Hc. unfold fexp, SpecFloat.emin, prec, emax. lia. }
  cbn [shr SpecFloat.iter_pos shr_1 orb shr_m loc_of_shr_record round_nearest_even Zdigits2
         shr_record_of_loc].
  rewrite Hd. replace (e - 1 + 1) with e by lia.
  rewrite Hc, Z.sub_diag. cbn [shr shr_m]. by rewrite He.
Qed.

Lemma SFdiv_one (s : bool) (m : positive) (e : Z) :
  bounded prec emax m e = true ->
  SFdiv prec emax (S754_finite s m e) (S754_finite false 4503599627370496 (-52)) =
  S754_finite s m e.
Proof.
  intros Hb. pose proof Hb as Hb'. unfold bounded, canonical_mantissa in Hb'.
  apply andb_prop in Hb' as [Hc He]. apply Z.eqb_eq in Hc. apply Z.leb_le in He.
  unfold SFdiv, SFdiv_core_binary.
  change (Zdigits2 (Z.pos 4503599627370496)) with 53.
  change (Zdigits2 (Z.pos m)) with (Z.pos (digits2_pos m)).
  rewrite xorb_false_r.
  set (e' := Z.min _ _).
  assert ((digits2_pos m = 53%positive /\ e' = e - 1) \/ e' = e) as [[Hd He']|He'].
  { destruct (decide (digits2_pos m = 53%positive)) as [Hd|Hd].
    - subst e'. rewrite Hd in *. revert Hc. unfold fexp, SpecFloat.emin, prec, emax. lia.
    - right. subst e'. revert Hc. unfold fexp, SpecFloat.emin, prec, emax.
      assert (Z.pos (digits2_pos m) <> 53) by congruence. lia. }
  - rewrite He'. replace (e - -52 - (e - 1)) with 53 by lia.
    rewrite Z.shiftl_mul_pow2 by done.
    replace (Z.pos m * 2 ^ 53) with (Z.pos m~0 * 4503599627370496) by lia.
    rewrite div_eucl_eq, Z.div_mul, Z.mod_mul by done.
    change (new_location 4503599627370496 0) with loc_Exact.
    by apply binary_round_aux_double.
  - rewrite He'. replace (e - -52 - e) with 52 by lia.
    rewrite Z.shiftl_mul_pow2 by done.
    change (2 ^ 52) with 4503599627370496.
    rewrite div_eucl_eq, Z.div_mul, Z.mod_mul by done.
    change (new_location 4503599627370496 0) with loc_Exact.
    by apply binary_round_aux_canonical.
Qed.

(** ** The health indicator *)

(** A float that is at least 60 is a positive number or plus infinity. *)
Lemma leb_60_cases (v : float) :
  (60 <=? v)%float = true ->
  Prim2SF v = S754_infinity false \/ exists m e, Prim2SF v = S754_finite false m e.
Proof.
  rewrite leb_spec.
  replace (Prim2SF 60) with (S754_finite false 8444249301319680 (-47))
    by (vm_compute; reflexivity).
  destruct (Prim2SF v) as [[]|[]| |[] m e]; cbn; try discriminate; eauto.
Qed.

Lemma eqb_refl_number (v : float) :
  (Prim2SF v = S754_infinity false \/ exists m e, Prim2SF v = S754_finite false m e) ->
  (v =? v)%float = true.
Proof.
  rewrite FloatAxioms.eqb_spec. intros [->|(m & e & ->)]; [done|].
  unfold SFeqb, SFcompare. by rewrite Z.compare_refl, Pos.compare_cont_refl.
Qed.

(** The mean of a column holding the single value [v >= 60] is [v]:
    [(0.0 + v) / 1.0] is exact. *)
Lemma series_mean_singleton (v : float) :
  (60 <=? v)%float = true -> series_mean [v] = v.
Proof.
  intros Hv. apply leb_60_cases in Hv. pose proof (eqb_refl_number v Hv) as Heq.
  unfold series_mean. cbn [List.filter]. unfold is_nan. rewrite Heq.
  cbn [negb fold_left length].
  change (Py.float_of_Z (Z.of_nat 1)) with 1%float.
  apply Prim2SF_inj. rewrite div_spec, add_spec, Prim2SF_zero, Prim2SF_one.
  pose proof (Prim2SF_valid v) as Hval.
  destruct Hv as [Hx|(m & e & Hx)]; rewrite Hx in *; [done|].
  cbn [SF64add SFadd]. by apply SFdiv_one.
Qed.

(** A mask that selects by a key picks one row when the keys are distinct. *)
Lemma filter_none {A} (p : A -> bool) (l : list A) :
  (forall r, In r l -> p r = false) -> List.filter p l = [].
Proof.
  induction l as [|r l IH]; intros H; simpl; [done|].
  rewrite (H r) by (by left). apply IH. intros r' Hr'. apply H. by right.
Qed.

Lemma filter_unique {A K} (key : A -> K) (k : K) (p : A -> bool) (l : list A) :
  (forall r, p r = true <-> key r = k) ->
  NoDup (map key l) -> In k (map key l) ->
  exists r, List.filter p l = [r] /\ In r l /\ key r = k.
Proof.
  intros Hp. induction l as [|r l IH]; simpl; [done|].
  intros Hnd Hin. apply NoDup_cons in Hnd as [Hnotin Hnd].
  destruct (p r) eqn:Hpr.
  - apply Hp in Hpr. exists r. split; [|by split; [left|]].
    f_equal. apply filter_none. intros r' Hr'.
    destruct (p r') eqn:Hpr'; [|done]. apply Hp in Hpr'.
    exfalso. apply Hnotin. rewrite Hpr, <- Hpr'. apply list_elem_of_In.
    by apply in_map.
  - destruct Hin as [Hk|Hin].
    + apply Hp in Hk. congruence.
    + destruct (IH Hnd Hin) as (r' & Hf & Hr' & Hk). exists r'. by repeat split; [|right|].
Qed.

Lemma region_years_NoDup : NoDup region_years.
Proof. apply (bool_decide_unpack _). by vm_compute. Qed.

(** C9: for every region of the table and every year from 2010 to 2023, the
    crop-health table has exactly one row matching the pair, and the value
    shown in the Crop Health tab, the mean over the matching rows, is the
    Crop Health Index of that row. *)
Theorem health_value_single_row {rng} (normal : float -> float -> rng -> float * rng)
    (s : rng) (region : string) (year : Z) :
  In region (keys regions) -> 2010 <= year <= 2023 ->
  let df := t_crop_health_df (load_data normal s).1 in
  exists row,
    matching_rows df region year = [row] /\ In row df /\
    CropHealth.Region row = region /\ CropHealth.Year row = year /\
    health_value df region year = CropHealth.Crop_Health_Index row.
Proof.
  intros Hregion Hyear. cbv zeta.
  pose proof (crop_health_df_keys _ normal s) as Hk.
  pose proof (crop_health_df_rows normal s) as Hrows.
  set (df := t_crop_health_df (load_data normal s).1) in *.
  destruct (filter_unique (fun r => (CropHealth.Region r, CropHealth.Year r))
              (region, year)
              (fun r => String.eqb (CropHealth.Region r) region &&
                        Z.eqb (CropHealth.Year r) year) df)
    as (row & Hf & Hin & Hkey).
  - intros r. rewrite andb_true_iff, String.eqb_eq, Z.eqb_eq. split.
    + by intros [-> ->].
    + intros [= -> ->]. done.
  - rewrite Hk. apply region_years_NoDup.
  - rewrite Hk. apply in_prod_iff. split; [done|]. apply range_In. lia.
  - exists row. injection Hkey as Hr Hy.
    split; [done|]. split; [done|]. split; [done|]. split; [done|].
    unfold health_value, matching_rows. rewrite Hf. cbn [map].
    apply series_mean_singleton.
    rewrite Forall_forall in Hrows. apply list_elem_of_In in Hin.
    by destruct (Hrows row Hin) as (_ & _ & ? & _).
Qed.

(** The selection the tab opens with: the first region and the year 2020, on
    the zero source. *)
Lemma health_value_single_row_witness :
  let df := t_crop_health_df (load_data zero_noise tt).1 in
  exists row,
    matching_rows df "Western Cape Wheat" 2020 = [row] /\ In row df /\
    CropHealth.Region row = "Western Cape Wheat" /\ CropHealth.Year row = 2020 /\
    health_value df "Western Cape Wheat" 2020 = CropHealth.Crop_Health_Index row.
Proof.
  apply (health_value_single_row zero_noise tt "Western Cape Wheat" 2020).
  - simpl. tauto.
  - lia.
Defined.

Example health_value_zero_noise :
  health_value (t_crop_health_df (load_data zero_noise tt).1) "KZN Sugarcane" 2020 =
  72%float.
Proof. vm_compute. reflexivity. Qed.

(** Outside the table the mask selects nothing and the mean is NaN. *)
Example health_value_no_row :
  matching_rows (t_crop_health_df (load_data zero_noise tt).1) "KZN Sugarcane" 2024 = [].
Proof. vm_compute. reflexivity. Qed.

(** * Further properties *)

(** ** The draws [load_data] consumes *)

Lemma draws_replay_state loc scale n tape :
  (draws replay loc scale n tape).2 = drop n tape.
Proof.
  revert tape. induction n as [|n IH]; intros tape; simpl; [done|].
  destruct tape as [|x tape]; simpl.
  - specialize (IH []). destruct (draws replay loc scale n []) as [xs s2].
    simpl in *. by rewrite IH, drop_nil.
  - specialize (IH tape). by destruct (draws replay loc scale n tape) as [xs s2].
Qed.

Lemma draws_replay_values loc scale n tape :
  (n <= length tape)%nat -> (draws replay loc scale n tape).1 = take n tape.
Proof.
  revert tape. induction n as [|n IH]; intros tape Hn; simpl; [done|].
  destruct tape as [|x tape]; simpl in *; [lia|].
  specialize (IH tape ltac:(lia)).
  destruct (draws replay loc scale n tape) as [xs s2]. simpl in *. by rewrite IH.
Qed.

Lemma sample_noise_replay tape :
  (148 <= length tape)%nat ->
  sample_noise replay tape =
  ({| temp_noise := take 14 tape;
      rain_noise := take 14 (drop 14 tape);
      crop_noise := take 42 (drop 28 tape);
      future_temp_noise := take 26 (drop 70 tape);
      future_rain_noise := take 26 (drop 96 tape);
      future_health_noise := take 26 (drop 122 tape) |}, drop 148 tape).
Proof.
  intros Hlen. unfold sample_noise.
  pose proof (draws_replay_state 0 0.2 14 tape) as Hs1.
  pose proof (draws_replay_values 0 0.2 14 tape ltac:(lia)) as Ha.
  destruct (draws replay 0 0.2 14 tape) as [a s1]. cbn [fst snd] in *. subst.
  pose proof (draws_replay_state 0 3 14 (drop 14 tape)) as Hs2.
  pose proof (draws_replay_values 0 3 14 (drop 14 tape)
                ltac:(rewrite length_drop; lia)) as Hb.
  destruct (draws replay 0 3 14 (drop 14 tape)) as [b s2]. cbn [fst snd] in *. subst.
  rewrite drop_drop. cbn [Nat.add].
  pose proof (draws_replay_state 0 5 42 (drop 28 tape)) as Hs3.
  pose proof (draws_replay_values 0 5 42 (drop 28 tape)
                ltac:(rewrite length_drop; lia)) as Hc.
  destruct (draws replay 0 5 42 (drop 28 tape)) as [c s3]. cbn [fst snd] in *. subst.
  rewrite drop_drop. cbn [Nat.add].
  pose proof (draws_replay_state 0 0.3 26 (drop 70 tape)) as Hs4.
  pose proof (draws_replay_values 0 0.3 26 (drop 70 tape)
                ltac:(rewrite length_drop; lia)) as Hd.
  destruct (draws replay 0 0.3 26 (drop 70 tape)) as [d s4]. cbn [fst snd] in *. subst.
  rewrite drop_drop. cbn [Nat.add].
  pose proof (draws_replay_state 0 5 26 (drop 96 tape)) as Hs5.
  pose proof (draws_replay_values 0 5 26 (drop 96 tape)
                ltac:(rewrite length_drop; lia)) as He.
  destruct (draws replay 0 5 26 (drop 96 tape)) as [e s5]. cbn [fst snd] in *. subst.
  rewrite drop_drop. cbn [Nat.add].
  pose proof (draws_replay_state 0 6 26 (drop 122 tape)) as Hs6.
  pose proof (draws_replay_values 0 6 26 (drop 122 tape)
                ltac:(rewrite length_drop; lia)) as Hf.
  destruct (draws replay 0 6 26 (drop 122 tape)) as [f s6]. cbn [fst snd] in *. subst.
  by rewrite drop_drop.
Qed.

(** X1: on a stream of at least 148 draws, [load_data] consumes exactly the
    first 148 and leaves the rest; its tables depend on those 148 only. *)
Theorem load_data_draw_budget (tape : list float) :
  (148 <= length tape)%nat ->
  (load_data replay tape).2 = drop 148 tape /\
  (forall tape' : list float,
     take 148 tape' = take 148 tape -> (148 <= length tape')%nat ->
     (load_data replay tape').1 = (load_data replay tape).1).
Proof.
  intros Hlen. split.
  { by rewrite load_data_closed_form, (sample_noise_replay tape Hlen). }
  intros tape' Heq Hlen'.
  rewrite !load_data_closed_form, (sample_noise_replay tape Hlen),
    (sample_noise_replay tape' Hlen'). cbn [fst].
  assert (forall a b, (a + b <= 148)%nat ->
            take b (drop a tape') = take b (drop a tape)) as Hseg.
  { intros a b Hab. rewrite !take_drop_commute.
    replace (take (a + b) tape') with (take (a + b) (take 148 tape'))
      by (rewrite take_take; f_equal; lia).
    replace (take (a + b) tape) with (take (a + b) (take 148 tape))
      by (rewrite take_take; f_equal; lia).
    by rewrite Heq. }
  f_equal. f_equal; try (apply Hseg; lia).
  rewrite <- (drop_0 tape'), <- (drop_0 tape). apply Hseg. lia.
Qed.

Lemma load_data_draw_budget_witness :
  (load_data replay (replicate 200 0%float)).2 = drop 148 (replicate 200 0%float) /\
  (forall tape' : list float,
     take 148 tape' = take 148 (replicate 200 0%float) -> (148 <= length tape')%nat ->
     (load_data replay tape').1 = (load_data replay (replicate 200 0%float)).1).
Proof.
  apply (load_data_draw_budget (replicate 200 0%float)).
  rewrite length_replicate. lia.
Defined.

Lemma lookup_zip_take {A B} (g : A -> float -> B) (xs : list A) (tape : list float)
    (off n i : nat) (x : A) :
  xs !! i = Some x -> (i < n)%nat -> (off + n <= length tape)%nat ->
  exists d, tape !! (off + i)%nat = Some d /\
            zip_with g xs (take n (drop off tape)) !! i = Some (g x d).
Proof.
  intros Hx Hi Hlen.
  destruct (lookup_lt_is_Some_2 tape (off + i)) as [d Hd]; [lia|].
  exists d. split; [done|].
  by rewrite lookup_zip_with, Hx, lookup_take_lt, lookup_drop, Hd by done.
Qed.

(** X2: which draw feeds which cell.  On a stream [tape] of at least 148
    draws, for the year [Y] at position [i] of its range: the temperature
    anomaly is [0.1*(Y-2010) + tape[i]], the rainfall anomaly
    [-2*(Y-2010) + tape[14+i]], the projected temperature
    [0.15*(Y-2010) + tape[70+i]], the projected rainfall
    [-3*(Y-2010) + tape[96+i]] and the projected crop health
    [max(40, 80 - 1.0*(Y-2010) + tape[122+i])]; the crop-health row at
    position [i] of the nested loops takes [tape[28+i]]. *)
Theorem draw_positions (tape : list float) :
  (148 <= length tape)%nat ->
  let t := (load_data replay tape).1 in
  let c := t_climate_df t in
  let p := t_projections_df t in
  (forall (i : nat) Y, Climate.Year c !! i = Some Y ->
     exists n m, tape !! i = Some n /\ tape !! (14 + i)%nat = Some m /\
       Climate.Temperature_Change c !! i =
         Some (0.1 * Py.float_of_Z (Y - 2010) + n)%float /\
       Climate.Rainfall_Change c !! i =
         Some (Py.float_of_Z (-2 * (Y - 2010)) + m)%float) /\
  (forall (i : nat) region Y, region_years !! i = Some (region, Y) ->
     exists n, tape !! (28 + i)%nat = Some n /\
       t_crop_health_df t !! i = Some (spec_crop_row (region, Y) n)) /\
  (forall (i : nat) Y, Projections.Year p !! i = Some Y ->
     exists n m k, tape !! (70 + i)%nat = Some n /\ tape !! (96 + i)%nat = Some m /\
       tape !! (122 + i)%nat = Some k /\
       Projections.Projected_Temp_Change p !! i =
         Some (0.15 * Py.float_of_Z (Y - 2010) + n)%float /\
       Projections.Projected_Rainfall_Change p !! i =
         Some (Py.float_of_Z (-3 * (Y - 2010)) + m)%float /\
       Projections.Projected_Crop_Health p !! i =
         Some (Py.max 40 (80 - 1.0 * Py.float_of_Z (Y - 2010) + k))%float).
Proof.
  intros Hlen. cbv zeta. rewrite load_data_closed_form, (sample_noise_replay tape Hlen).
  cbn [fst tables_of t_climate_df t_crop_health_df t_projections_df Climate.Year
         Climate.Temperature_Change Climate.Rainfall_Change Projections.Year
         Projections.Projected_Temp_Change Projections.Projected_Rainfall_Change
         Projections.Projected_Crop_Health temp_noise rain_noise crop_noise
         future_temp_noise future_rain_noise future_health_noise].
  split; [|split].
  - intros i Y HY.
    assert (i < 14)%nat as Hi by (apply lookup_lt_Some in HY; by rewrite years_length in HY).
    destruct (lookup_zip_take (fun year n => 0.1 * Py.float_of_Z (year - 2010) + n)%float
                _ tape 0 14 i Y HY Hi ltac:(lia)) as (n & Hn & Ht).
    destruct (lookup_zip_take (fun year n => Py.float_of_Z (-2 * (year - 2010)) + n)%float
                _ tape 14 14 i Y HY Hi ltac:(lia)) as (m & Hm & Hr).
    exists n, m. rewrite drop_0 in Ht. done.
  - intros i region Y HY.
    assert (i < 42)%nat as Hi
      by (apply lookup_lt_Some in HY; by rewrite region_years_length in HY).
    destruct (lookup_zip_take spec_crop_row _ tape 28 42 i _ HY Hi ltac:(lia))
      as (n & Hn & Hc).
    by exists n.
  - intros i Y HY.
    assert (i < 26)%nat as Hi
      by (apply lookup_lt_Some in HY; by rewrite future_years_length in HY).
    destruct (lookup_zip_take (fun year n => 0.15 * Py.float_of_Z (year - 2010) + n)%float
                _ tape 70 26 i Y HY Hi ltac:(lia)) as (n & Hn & Ht).
    destruct (lookup_zip_take (fun year n => Py.float_of_Z (-3 * (year - 2010)) + n)%float
                _ tape 96 26 i Y HY Hi ltac:(lia)) as (m & Hm & Hr).
    destruct (lookup_zip_take spec_future_health _ tape 122 26 i Y HY Hi ltac:(lia))
      as (k & Hk & Hh).
    exists n, m, k. done.
Qed.

Lemma draw_positions_witness :
  let tape := map Py.float_of_Z (Py.range 0 148) in
  let t := (load_data replay tape).1 in
  let c := t_climate_df t in
  let p := t_projections_df t in
  (forall (i : nat) Y, Climate.Year c !! i = Some Y ->
     exists n m, tape !! i = Some n /\ tape !! (14 + i)%nat = Some m /\
       Climate.Temperature_Change c !! i =
         Some (0.1 * Py.float_of_Z (Y - 2010) + n)%float /\
       Climate.Rainfall_Change c !! i =
         Some (Py.float_of_Z (-2 * (Y - 2010)) + m)%float) /\
  (forall (i : nat) region Y, region_years !! i = Some (region, Y) ->
     exists n, tape !! (28 + i)%nat = Some n /\
       t_crop_health_df t !! i = Some (spec_crop_row (region, Y) n)) /\
  (forall (i : nat) Y, Projections.Year p !! i = Some Y ->
     exists n m k, tape !! (70 + i)%nat = Some n /\ tape !! (96 + i)%nat = Some m /\
       tape !! (122 + i)%nat = Some k /\
       Projections.Projected_Temp_Change p !! i =
         Some (0.15 * Py.float_of_Z (Y - 2010) + n)%float /\
       Projections.Projected_Rainfall_Change p !! i =
         Some (Py.float_of_Z (-3 * (Y - 2010)) + m)%float /\
       Projections.Projected_Crop_Health p !! i =
         Some (Py.max 40 (80 - 1.0 * Py.float_of_Z (Y - 2010) + k))%float).
Proof.
  apply (draw_positions (map Py.float_of_Z (Py.range 0 148))).
  rewrite length_map, range_length. lia.
Defined.

(** ** The health gauge *)

Lemma matching_rows_single {rng} (normal : float -> float -> rng -> float * rng)
    (s : rng) (region : string) (year : Z) :
  In region (keys regions) -> 2010 <= year <= 2023 ->
  exists row,
    matching_rows (t_crop_health_df (load_data normal s).1) region year = [row] /\
    (60 <=? CropHealth.Crop_Health_Index row)%float = true.
Proof.
  intros Hregion Hyear.
  pose proof (crop_health_df_keys _ normal s) as Hk.
  pose proof (crop_health_df_rows normal s) as Hrows.
  set (df := t_crop_health_df (load_data normal s).1) in *.
  destruct (filter_unique (fun r => (CropHealth.Region r, CropHealth.Year r))
              (region, year)
              (fun r => String.eqb (CropHealth.Region r) region &&
                        Z.eqb (CropHealth.Year r) year) df)
    as (row & Hf & Hin & Hkey).
  - intros r. rewrite andb_true_iff, String.eqb_eq, Z.eqb_eq. split.
    + by intros [-> ->].
    + intros [= -> ->]. done.
  - rewrite Hk. apply region_years_NoDup.
  - rewrite Hk. apply in_prod_iff. split; [done|]. apply range_In. lia.
  - exists row. split; [done|].
    rewrite Forall_forall in Hrows. apply list_elem_of_In in Hin.
    by destruct (Hrows row Hin) as (_ & _ & ? & _).
Qed.

(** X3: for every selectable region and year the value sent to the gauge is
    a number of at least 60, so it never falls in the red band [0, 40]; it is
    not capped at the top of the gauge axis: a draw of 25 for Western Cape
    Wheat in 2010 gives 105, above 100. *)
Theorem health_value_range :
  (forall rng (normal : float -> float -> rng -> float * rng) (s : rng) region year,
     In region (keys regions) -> 2010 <= year <= 2023 ->
     (60 <=? health_value (t_crop_health_df (load_data normal s).1) region year)%float
       = true) /\
  health_value
    (t_crop_health_df (load_data replay (replicate 28 0%float ++ [25%float])).1)
    "Western Cape Wheat" 2010 = 105%float.
Proof.
  split.
  - intros rng normal s region year Hregion Hyear.
    destruct (matching_rows_single normal s region year Hregion Hyear)
      as (row & Hrow & Hfloor).
    unfold health_value. rewrite Hrow. cbn [map].
    by rewrite series_mean_singleton.
  - vm_compute. reflexivity.
Qed.

(** ** The NDVI series *)

(** X4: whatever the region name, the NDVI series has one value per month
    (so the frame is built), every value lies within the chart's axis range
    [0, 1], and a name other than the first two regions gets the series of KZN
    Sugarcane. *)
Theorem ndvi_series (region : string) :
  length (ndvi_values region) = length months /\
  (exists df, ndvi_df region = Ok df) /\
  Forall (fun v => (0 <=? v)%float = true /\ (v <=? 1)%float = true)
         (ndvi_values region) /\
  (region <> "Western Cape Wheat" -> region <> "Free State Maize" ->
   ndvi_values region = ndvi_values "KZN Sugarcane").
Proof.
  unfold ndvi_df, ndvi_values.
  destruct (String.eqb_spec region "Western Cape Wheat") as [->|Hw].
  { split; [done|]. split; [by eexists|]. split; [|done].
    repeat (constructor; [split; vm_compute; reflexivity|]). constructor. }
  destruct (String.eqb_spec region "Free State Maize") as [->|Hm].
  { split; [done|]. split; [by eexists|]. split; [|done].
    repeat (constructor; [split; vm_compute; reflexivity|]). constructor. }
  split; [done|]. split; [by eexists|]. split; [|done].
  repeat (constructor; [split; vm_compute; reflexivity|]). constructor.
Qed.

(** ** The yield projections *)

Lemma adjacent_b_lookup {A} (r : A -> A -> bool) (l : list A) (i : nat) (a b : A) :
  adjacent_b r l = true -> l !! i = Some a -> l !! S i = Some b -> r a b = true.
Proof.
  revert i. induction l as [|x l IH]; intros i Hadj Ha Hb; [done|].
  destruct l as [|y l]; [done|].
  cbn [adjacent_b] in Hadj. apply andb_prop in Hadj as [Hxy Hadj].
  destruct i as [|i]; simplify_eq/=; [done|]. by apply (IH i).
Qed.

(** X5: the slope of the yield series is chosen by substring: 0.5 per year
    when the scenario label contains "Low", otherwise 1.0 when it contains
    "Moderate", otherwise 2.0; the three options of the radio get 0.5, 1.0
    and 2.0 in this order. *)
Theorem yields_by_scenario (scenario : string) :
  let series (k : float) :=
    map (fun year => Py.float_of_Z 100 - k * Py.float_of_Z (year - 2024))%float
        (Py.range 2024 2050) in
  ((Substring "Low" scenario /\ yields scenario = series 0.5%float) \/
   (~ Substring "Low" scenario /\ Substring "Moderate" scenario /\
    yields scenario = series 1.0%float) \/
   (~ Substring "Low" scenario /\ ~ Substring "Moderate" scenario /\
    yields scenario = series 2.0%float)) /\
  map yields scenarios = [series 0.5%float; series 1.0%float; series 2.0%float].
Proof.
  cbv zeta. split; [|reflexivity]. unfold yields.
  destruct (Py.str_in "Low" scenario) eqn:Hl.
  - left. by apply str_in_spec in Hl.
  - apply str_in_false in Hl. destruct (Py.str_in "Moderate" scenario) eqn:Hm.
    + right; left. by apply str_in_spec in Hm.
    + right; right. by apply str_in_false in Hm.
Qed.

(** X6: whatever the scenario label, the yield series has one value per year
    2024..2049 (so the frame is built), starts at exactly 100 in 2024,
    falls strictly from each year to the next, and stays between 50 and
    100. *)
Theorem yields_shape (scenario : string) :
  length (yields scenario) = length (Py.range 2024 2050) /\
  (exists df, yield_df scenario = Ok df) /\
  yields scenario !! 0%nat = Some 100%float /\
  (forall (i : nat) a b, yields scenario !! i = Some a -> yields scenario !! S i = Some b ->
     (b <? a)%float = true) /\
  Forall (fun y => (50 <=? y)%float = true /\ (y <=? 100)%float = true) (yields scenario).
Proof.
  assert (forall ys : list float,
            length ys = 26%nat -> ys !! 0%nat = Some 100%float ->
            adjacent_b (fun a b => b <? a)%float ys = true ->
            forallb (fun y => (50 <=? y)%float && (y <=? 100)%float) ys = true ->
            length ys = length (Py.range 2024 2050) /\
            (exists df, DataFrame [("Year", map CInt (Py.range 2024 2050));
                                   ("Projected Yield (%)", map CFloat ys)] = Ok df) /\
            ys !! 0%nat = Some 100%float /\
            (forall (i : nat) a b, ys !! i = Some a -> ys !! S i = Some b ->
               (b <? a)%float = true) /\
            Forall (fun y => (50 <=? y)%float = true /\ (y <=? 100)%float = true) ys)
    as Hall.
  { intros ys Hlen H0 Hadj Hb. split; [by rewrite Hlen|]. split.
    - unfold DataFrame. cbn [forallb snd]. rewrite !length_map, Hlen.
      by eexists.
    - split; [done|]. split.
      + intros i a b Ha Hb'.
        exact (adjacent_b_lookup (fun a b => b <? a)%float ys i a b Hadj Ha Hb').
      + rewrite forallb_forall in Hb. apply List.Forall_forall. intros y Hy.
        specialize (Hb y Hy). by apply andb_prop in Hb. }
  unfold yield_df, yields.
  destruct (Py.str_in "Low" scenario); [|destruct (Py.str_in "Moderate" scenario)];
    apply Hall; vm_compute; reflexivity.
Qed.

Example yields_high_2049 :
  last (yields "High Emissions (RCP 8.5)") = Some 50%float.
Proof. vm_compute. reflexivity. Qed.

(** ** More on the season selection *)

Lemma select_season_no_press (st : gmap string value) :
  is_Some (st !! "crop_season") -> select_season no_press st = st.
Proof.
  intros [v Hv]. unfold select_season. cbn [no_press planting_btn growth_btn harvest_btn].
  by rewrite Hv.
Qed.

(** X7: whatever the session state held and whatever the buttons, after the
    selection code the key "crop_season" is present, so the reads at the
    display line and in the image caption cannot fail; when several buttons
    are true the last in source order wins (Harvest, then Growth, then
    Planting); and a further run without a click changes nothing in the
    session state. *)
Theorem season_key_set (b : buttons) (st : gmap string value) :
  is_Some (crop_season (select_season b st)) /\
  (pressed b = true ->
   crop_season (select_season b st) =
   Some (VStr (if harvest_btn b then "Harvest"
               else if growth_btn b then "Growth" else "Planting"))) /\
  select_season no_press (select_season b st) = select_season b st.
Proof.
  pose proof (select_season_lookup b st) as Hl. split; [|split].
  - rewrite Hl. by eexists.
  - intros Hp. rewrite Hl. unfold pressed in Hp.
    by destruct b as [[] [] []].
  - apply select_season_no_press. unfold crop_season in Hl. rewrite Hl. by eexists.
Qed.

Lemma session_idle (st : gmap string value) (n : nat) :
  is_Some (st !! "crop_season") -> session st (replicate n no_press) = st.
Proof.
  intros Hs. induction n as [|n IH]; [done|].
  unfold session in *. cbn [replicate foldl].
  by rewrite select_season_no_press.
Qed.

(** X8: the last click persists: from any session state and after any
    earlier runs, a click on a button followed by any number of runs without
    a click leaves exactly that button's value as the season. *)
Theorem last_click_persists (st0 : gmap string value) (runs : list buttons)
    (k : season_button) (n : nat) :
  crop_season (session st0 (runs ++ [press k] ++ replicate n no_press)) =
  Some (VStr (button_value k)).
Proof.
  assert (crop_season (session st0 (runs ++ [press k])) = Some (VStr (button_value k)))
    as Hk.
  { rewrite session_snoc, select_season_lookup. by destruct k. }
  rewrite app_assoc. unfold session in *. rewrite foldl_app.
  fold (session (foldl (fun st b => select_season b st) st0 (runs ++ [press k]))
          (replicate n no_press)).
  rewrite session_idle; [done|]. unfold crop_season in Hk. rewrite Hk. by eexists.
Qed.

(** A stored season that is none of the three values is neither checked nor
    reset by a run without a click. *)
Example season_not_validated :
  crop_season (session {["crop_season" := VInt 7]} [no_press; no_press]) = Some (VInt 7).
Proof. reflexivity. Qed.

(** ** The map layer *)

Lemma float_of_Z_2 : Py.float_of_Z 2 = 2%float.
Proof. vm_compute. reflexivity. Qed.

Lemma region_feature_ok (region : string) (data : region_info) w s e n rest :
  bbox data = w :: s :: e :: n :: rest ->
  exists f m, region_feature region data = Ok (f, m) /\
              is_box_feature (region, data) f /\ is_center_marker (region, data) m.
Proof.
  intros Hb. unfold region_feature. rewrite Hb. cbn. rewrite float_of_Z_2.
  do 2 eexists. split; [reflexivity|].
  split; (split; [done|]; split; [done|]); [split; [done|]|];
    exists w, s, e, n, rest; cbn [fst snd]; by rewrite Hb.
Qed.

Lemma region_feature_short (region : string) (data : region_info) :
  (length (bbox data) < 4)%nat ->
  region_feature region data = Raise (Exception "IndexError" "list index out of range").
Proof.
  unfold region_feature.
  destruct (bbox data) as [|w [|s [|e [|n rest]]]]; cbn; intros H; try done. lia.
Qed.

Lemma features_loop_ok items fs ms reg :
  Forall (fun kd : string * region_info => (4 <= length (bbox kd.2))%nat) items ->
  exists fs' ms',
    features_loop items fs ms reg =
      Ok (fs ++ fs', ms ++ ms', from_option Some reg (last (keys items))) /\
    Forall2 is_box_feature items fs' /\ Forall2 is_center_marker items ms'.
Proof.
  intros Hall. revert fs ms reg.
  induction Hall as [|[k d] items Hd Hall IH]; intros fs ms reg.
  - exists [], []. cbn. by rewrite !app_nil_r.
  - cbn [snd] in Hd.
    destruct (bbox d) as [|w [|s [|e [|n rest]]]] eqn:Hb; cbn in Hd; try lia.
    destruct (region_feature_ok k d w s e n rest Hb) as (f & m & Hrf & Hf & Hm).
    destruct (IH (fs ++ [f]) (ms ++ [m]) (Some k)) as (fs' & ms' & Hloop & Hfs & Hms).
    exists (f :: fs'), (m :: ms'). split; [|split; constructor; assumption].
    cbn [features_loop]. rewrite Hrf. cbn [res_bind fst snd]. rewrite Hloop.
    rewrite <- !app_assoc. cbn [app]. f_equal. f_equal.
    unfold keys. cbn [map fst]. destruct (map fst items) as [|k' l]; [done|].
    change (last (k :: k' :: l)) with (last (k' :: l)).
    destruct (last (k' :: l)) eqn:E; [done|]. by apply last_None in E.
Qed.

(** X9: for any non-empty table of regions whose boxes have their four
    entries, the map gets one feature and one marker per region, in the order
    of the table; each feature is the closed five-point ring around the
    region's box and carries its name, each marker stands at the midpoint of
    the box; all features go into a single layer, which is named after the
    last region of the table. *)
Theorem regions_map_features (regions : list (string * region_info)) :
  regions <> [] ->
  Forall (fun kd : string * region_info => (4 <= length (bbox kd.2))%nat) regions ->
  exists markers layer,
    regions_map regions = Ok (markers, layer) /\
    geojson_type layer = "FeatureCollection" /\
    last (keys regions) = Some (layer_name layer) /\
    Forall2 is_box_feature regions (geojson_features layer) /\
    Forall2 is_center_marker regions markers.
Proof.
  intros Hne Hall.
  destruct (features_loop_ok regions [] [] None Hall) as (fs & ms & Hloop & Hfs & Hms).
  unfold regions_map. rewrite Hloop. cbn [res_bind fst snd app].
  destruct (last (keys regions)) as [k|] eqn:Hlast.
  - cbn. by do 2 eexists.
  - apply last_None in Hlast. destruct regions; [done|discriminate].
Qed.

Lemma regions_map_features_witness :
  exists markers layer,
    regions_map regions = Ok (markers, layer) /\
    geojson_type layer = "FeatureCollection" /\
    last (keys regions) = Some (layer_name layer) /\
    Forall2 is_box_feature regions (geojson_features layer) /\
    Forall2 is_center_marker regions markers.
Proof.
  apply (regions_map_features regions).
  - discriminate.
  - repeat constructor.
Defined.

(** The layer of the program's own table is named after its last region. *)
Example regions_map_layer_name :
  (fun r => match r with Ok ml => Some (layer_name ml.2) | Raise _ => None end)
    (regions_map regions) = Some "KZN Sugarcane".
Proof. vm_compute. reflexivity. Qed.

Lemma features_loop_short items fs ms reg :
  Exists (fun kd : string * region_info => (length (bbox kd.2) < 4)%nat) items ->
  features_loop items fs ms reg =
  Raise (Exception "IndexError" "list index out of range").
Proof.
  intros Hex. revert fs ms reg.
  induction items as [|[k d] items IH]; intros fs ms reg; [by inversion Hex|].
  cbn [features_loop].
  destruct (decide (length (bbox d) < 4)%nat) as [Hshort|Hlong].
  - by rewrite (region_feature_short k d Hshort).
  - apply Exists_cons in Hex as [Hex|Hex]; [done|].
    destruct (bbox d) as [|w [|s [|e [|n rest]]]] eqn:Hb; cbn in Hlong; try lia.
    destruct (region_feature_ok k d w s e n rest Hb) as (f & m & Hrf & _).
    rewrite Hrf. cbn [res_bind]. by apply IH.
Qed.

(** X10: the map code fails in two cases: on an empty table the layer name
    reads a loop variable that was never bound (NameError), and on a table
    with a box of fewer than four entries the indexing raises IndexError;
    nothing is added to the map in either case. *)
Theorem regions_map_errors :
  regions_map [] = Raise (Exception "NameError" "name 'region' is not defined") /\
  (forall regions : list (string * region_info),
     Exists (fun kd : string * region_info => (length (bbox kd.2) < 4)%nat) regions ->
     regions_map regions = Raise (Exception "IndexError" "list index out of range")).
Proof.
  split; [reflexivity|]. intros regions Hex. unfold regions_map.
  by rewrite (features_loop_short regions [] [] None Hex).
Qed.

(** ** The regional temperature table *)

Lemma temp_data_closed_form {rng} (normal : float -> float -> rng -> float * rng)
    (region : string) (s : rng) :
  temp_data normal region s =
  (zip_with (temp_row_of region) (Py.range 2010 2024) (draws normal 0 0.15 14 s).1,
   (draws normal 0 0.15 14 s).2).
Proof.
  unfold temp_data.
  by rewrite (for_each_append_draws _ normal (temp_row_of region)), years_length, app_nil_l.
Qed.

(** X11: for any region name, building the temperature table makes exactly
    14 draws of [normal(0, 0.15)], one per year 2010..2023 in order; the row
    of a year is computed from that year's draw alone, the three temperatures
    of a row sharing it; the region enters through the base temperature only,
    which is 26.5 for every name other than the first two regions. *)
Theorem temp_data_rows {rng} (normal : float -> float -> rng -> float * rng)
    (region : string) (s : rng) :
  let out := temp_data normal region s in
  let ns := (draws normal 0 0.15 14 s).1 in
  out.2 = (draws normal 0 0.15 14 s).2 /\
  length ns = 14%nat /\ length out.1 = 14%nat /\
  map temp_Year out.1 = Py.range 2010 2024 /\
  (forall (i : nat) Y, Py.range 2010 2024 !! i = Some Y ->
     exists n, ns !! i = Some n /\
       out.1 !! i =
       Some {| temp_Year := Y;
               Average_Temperature :=
                 (base_temp region + (0.08 * Py.float_of_Z (Y - 2010) + n))%float;
               Max_Temperature :=
                 (base_temp region + 5 + (0.08 * Py.float_of_Z (Y - 2010) + n))%float;
               Min_Temperature :=
                 (base_temp region - 5 + (0.08 * Py.float_of_Z (Y - 2010) + n))%float |}) /\
  (region <> "Western Cape Wheat" -> region <> "Free State Maize" ->
   base_temp region = 26.5%float).
Proof.
  cbv zeta. rewrite temp_data_closed_form. cbn [fst snd].
  pose proof (draws_length _ normal 0 0.15 14 s) as Hlen.
  split; [done|]. split; [done|]. split; [|split; [|split]].
  - by rewrite length_zip_with, years_length, Hlen.
  - assert (length (Py.range 2010 2024) <= length (draws normal 0 0.15 14 s).1)%nat
      as Hle by (rewrite years_length, Hlen; lia).
    revert Hle. generalize (draws normal 0 0.15 14 s).1, (Py.range 2010 2024).
    intros ns ys. revert ns. induction ys as [|y ys IH]; intros [|n ns] Hle;
      cbn in *; try done; try lia. f_equal. apply IH. lia.
  - intros i Y HY.
    assert (i < 14)%nat as Hi by (apply lookup_lt_Some in HY; by rewrite years_length in HY).
    destruct (lookup_lt_is_Some_2 (draws normal 0 0.15 14 s).1 i) as [n Hn]; [lia|].
    exists n. split; [done|]. rewrite lookup_zip_with, HY, Hn. cbn.
    unfold temp_row_of. do 2 f_equal.
    all: by replace (Py.float_of_Z 5) with 5%float by (vm_compute; reflexivity).
  - intros Hw Hm. unfold base_temp.
    destruct (String.eqb_spec region "Western Cape Wheat"); [done|].
    by destruct (String.eqb_spec region "Free State Maize").
Qed.

(** ** One run of the script after another *)

(** X12: over two consecutive runs of the script in one process (the cache
    modelled as for the cached [load_data]): both runs see the same four
    tables, those of the single execution of [load_data]; the temperature
    table is built afresh in each run, the first from the 14 draws that follow
    those of [load_data], the second from the 14 draws after these; and
    [load_data] has run once. *)
Theorem script_runs_compose {rng} (normal : float -> float -> rng -> float * rng)
    (region1 region2 : string) (s : rng) :
  let p0 := {| cache := None; generator := s; computed := 0 |} in
  let r1 := script_run normal region1 p0 in
  let r2 := script_run normal region2 r1.2 in
  let s1 := (load_data normal s).2 in
  let s2 := (draws normal 0 0.15 14 s1).2 in
  r1.1.1 = (load_data normal s).1 /\ r2.1.1 = r1.1.1 /\
  r1.1.2 = zip_with (temp_row_of region1) (Py.range 2010 2024) (draws normal 0 0.15 14 s1).1 /\
  r2.1.2 = zip_with (temp_row_of region2) (Py.range 2010 2024) (draws normal 0 0.15 14 s2).1 /\
  generator r1.2 = s2 /\ generator r2.2 = (draws normal 0 0.15 14 s2).2 /\
  computed r2.2 = 1%nat.
Proof.
  cbv zeta. unfold script_run.
  rewrite (cached_load_data_miss rng normal
             {| cache := None; generator := s; computed := 0 |} eq_refl).
  cbn [generator cache computed].
  rewrite temp_data_closed_form. cbn [fst snd].
  erewrite cached_load_data_hit by reflexivity. cbn [generator cache computed].
  rewrite temp_data_closed_form. cbn [fst snd generator computed]. done.
Qed.

(** On a stream of distinct draws the two temperature tables differ while the
    four tables do not. *)
Example script_runs_resample :
  let tape := map Py.float_of_Z (Py.range 0 400) in
  let p0 := {| cache := None; generator := tape; computed := 0 |} in
  let r1 := script_run replay "KZN Sugarcane" p0 in
  let r2 := script_run replay "KZN Sugarcane" r1.2 in
  r2.1.1 = r1.1.1 /\ r2.1.2 <> r1.1.2 /\
  generator r1.2 = drop 162 tape /\ generator r2.2 = drop 176 tape.
Proof.
  cbv zeta. split; [|split; [|split]].
  - vm_compute. reflexivity.
  - intros H. apply (f_equal (fun l => Average_Temperature <$> head l)) in H.
    vm_compute in H. discriminate.
  - vm_compute. reflexivity.
  - vm_compute. reflexivity.
Qed.

(** ** Image URLs and the region table *)


Section ImageUrls.

Variable payload : Type.
Variable image : Type.
Variable requests_get : string -> bool -> result (response payload).
Variable Image_open : payload -> result image.
Variable encode : image -> result unit.


End ImageUrls.

(** ** The vulnerability frames *)

Lemma DataFrame_same_length (name : string) (c : list cell)
    (rest : list (string * list cell)) (n : nat) :
  Forall (fun kc : string * list cell => length kc.2 = n) rest ->
  DataFrame ((name, c) :: rest) =
  if decide (rest = [] \/ length c = n) then Ok ((name, c) :: rest)
  else Raise (Exception "ValueError" "All arrays must be of the same length").
Proof.
  intros Hall. unfold DataFrame.
  destruct rest as [|kc rest]; [by rewrite decide_True by (by left)|].
  destruct (decide (length c = n)) as [Hn|Hn].
  - rewrite decide_True by (by right).
    replace (forallb _ (kc :: rest)) with true; [done|].
    symmetry. apply forallb_forall. intros x Hx. apply Nat.eqb_eq.
    rewrite List.Forall_forall in Hall. rewrite (Hall x Hx). done.
  - rewrite decide_False by (intros [?|?]; done).
    replace (forallb _ (kc :: rest)) with false; [done|].
    symmetry. cbn [forallb]. apply andb_false_iff. left. apply Nat.eqb_neq.
    apply Forall_cons in Hall as [Hkc _]. congruence.
Qed.

(** X14: the two vulnerability frames pair the keys of the region table with
    hard-coded columns of three (tab 1) and four (tab 4, with "Other Areas"
    added) entries: each frame is built exactly when the table has three
    regions and is a [ValueError] otherwise.  With the program's table both
    are built, and the "Crop Type" column of the first agrees row by row with
    the crop type [load_data] derives from the region names. *)
Theorem vulnerability_frames (r : list (string * region_info)) :
  DataFrame (vulnerability_data r) =
    (if decide (length r = 3%nat) then Ok (vulnerability_data r)
     else Raise (Exception "ValueError" "All arrays must be of the same length")) /\
  DataFrame (vulnerability r) =
    (if decide (length r = 3%nat) then Ok (vulnerability r)
     else Raise (Exception "ValueError" "All arrays must be of the same length")) /\
  DataFrame (vulnerability_data regions) = Ok (vulnerability_data regions) /\
  DataFrame (vulnerability regions) = Ok (vulnerability regions) /\
  column (vulnerability_data regions) "Crop Type" =
    Some (map (fun region => CStr (crop_type region)) (keys regions)).
Proof.
  split; [|split; [|repeat split]].
  - unfold vulnerability_data.
    rewrite (DataFrame_same_length _ _ _ 3) by (repeat constructor).
    rewrite length_map. unfold keys. rewrite length_map.
    destruct (decide (length r = 3%nat)) as [H|H].
    + rewrite decide_True by (by right). done.
    + rewrite decide_False by (intros [?|?]; done). done.
  - unfold vulnerability.
    rewrite (DataFrame_same_length _ _ _ 4) by (repeat constructor).
    rewrite length_map, length_app. unfold keys. rewrite length_map. cbn [length].
    destruct (decide (length r = 3%nat)) as [H|H].
    + rewrite decide_True by (right; lia). done.
    + rewrite decide_False by (intros [?|?]; [done|lia]). done.
Qed.
